(** * opni-drain-service: the scoring pipeline and the retrain controller

    A shallow embedding of [drain-service/drain_training_inferencing.py]:
    the retrain signal controller ([training_signal_check]), the scoring
    stage ([train_and_inference]), the ingestion handlers ([consume_logs])
    and the persistence stage ([update_es_logs]).

    Conventions.
    - Python [int] is [Z]; a [len(...)] is a [nat].
    - the controller compares a numpy float64 with the literals 0.199,
      0.155 and 0.15. It is given in two readings. [training_signal_tick64]
      compares IEEE-754 binary64 values, for whatever float64 lines
      274-279 compute from the window; [Volatility64.weighted_vol] is that
      computation, with numpy's operations in numpy's order.
      [training_signal_tick] idealises the arithmetic to exact rationals
      ([Q]), the quotient [sqrt(variance) / mean] kept by its square; it
      serves the properties of whole streams, and differs from the code
      where a rounding error carries the value across a threshold
      ([rounding_crosses_the_threshold]).
    - [time.time_ns()] reads an oracle clock: the [k]-th call of the
      controller returns [clk k].
    - Python's [re] is a parameter of the scoring stage ([RegexEngine]):
      what it compiles, and what a compiled pattern matches, is left to
      the engine. The patterns made of plain keywords are given their
      meaning in [Regex], for the engines that read them as [re] does.
    - an [asyncio] coroutine is a suspended state transformer; only [await]
      runs it. *)

From Stdlib Require Import ZArith QArith SpecFloat String Ascii Bool Lia Arith
  List.
Import ListNotations.

Local Open Scope Z_scope.

(* ================================================================== *)
(** * Volatility of the cluster-count window, in exact arithmetic        *)
(* ================================================================== *)

Module Volatility.

(** [np.array(num_total_clusters_tracking_queue)]: the deque in its own
    order, most recent sample first. *)
Definition np_array (window : list nat) : list Q :=
  map (fun n => inject_Z (Z.of_nat n)) window.

Definition np_sum (xs : list Q) : Q := fold_right Qplus 0%Q xs.

Definition np_len (xs : list Q) : Q := inject_Z (Z.of_nat (length xs)).

(** [np.mean(xs)]. *)
Definition np_mean (xs : list Q) : Q := (np_sum xs / np_len xs)%Q.

(** [np.average(values, weights=weights)]. *)
Definition np_average (values weights : list Q) : Q :=
  (np_sum (map (fun p => fst p * snd p) (combine values weights))
   / np_sum weights)%Q.

(** The square of [np.std(xs)] (population variance). *)
Definition np_var (xs : list Q) : Q :=
  let m := np_mean xs in
  np_mean (map (fun x => (x - m) * (x - m)) xs)%Q.

(** [np.arange(1, n + 1)]. *)
Definition np_arange1 (n : nat) : list Q :=
  map (fun k => inject_Z (Z.of_nat k)) (seq 1 n).

(** [np.flip(np.true_divide(np.arange(1, time_steps + 1), time_steps))]:
    the most recent sample (front of the window) has weight 1, the oldest
    has weight [1 / time_steps]. *)
Definition weights (time_steps : nat) : list Q :=
  rev (map (fun k => k / inject_Z (Z.of_nat time_steps))%Q
           (np_arange1 time_steps)).

(** [weighted_avg_and_std], the standard deviation given by its square. *)
Definition weighted_avg_and_var (values ws : list Q) : Q * Q :=
  let average := np_average values ws in
  let variance :=
    np_average (map (fun x => (x - average) * (x - average))%Q values) ws in
  (average, variance).

(** A non-negative float [sqrt v / m] with [0 <= m]: finite (kept by its
    square), [inf] when a positive number is divided by zero, [nan] for
    [0 / 0]. *)
Inductive vol_t : Type :=
| VolSq (square : Q)
| VolInf
| VolNaN.

Definition std_over_mean (variance m : Q) : vol_t :=
  if Qeq_bool m 0
  then (if Qeq_bool variance 0 then VolNaN else VolInf)
  else VolSq (variance / (m * m))%Q.

(** [num_clusters[:10]]. *)
Definition first10 (xs : list Q) : list Q := firstn 10 xs.

(** [vol = np.std(num_clusters) / np.mean(num_clusters[:10])]. *)
Definition vol (window : list nat) : vol_t :=
  let num_clusters := np_array window in
  std_over_mean (np_var num_clusters) (np_mean (first10 num_clusters)).

(** [weighted_vol = weighted_std / np.mean(num_clusters[:10])]. *)
Definition weighted_vol (window : list nat) : vol_t :=
  let num_clusters := np_array window in
  let time_steps := length num_clusters in
  let '(_, variance) :=
    weighted_avg_and_var num_clusters (weights time_steps) in
  std_over_mean variance (np_mean (first10 num_clusters)).

(** Comparisons of a [vol_t] with a positive threshold: as with float64,
    [nan] compares false with everything and [inf] is above every
    threshold. *)
Definition Qltb (a b : Q) : bool := negb (Qle_bool b a).

Definition vol_ge (v : vol_t) (t : Q) : bool :=
  match v with
  | VolSq s => Qle_bool (t * t) s
  | VolInf => true
  | VolNaN => false
  end.

Definition vol_gt (v : vol_t) (t : Q) : bool :=
  match v with
  | VolSq s => Qltb (t * t) s
  | VolInf => true
  | VolNaN => false
  end.

Definition vol_lt (v : vol_t) (t : Q) : bool :=
  match v with
  | VolSq s => Qltb s (t * t)
  | VolInf => false
  | VolNaN => false
  end.

Definition vol_le (v : vol_t) (t : Q) : bool :=
  match v with
  | VolSq s => Qle_bool s (t * t)
  | VolInf => false
  | VolNaN => false
  end.

End Volatility.

Import Volatility.

(* ================================================================== *)
(** * float64 arithmetic                                                 *)
(* ================================================================== *)

Module Float64.

(** IEEE-754 binary64, the [float] of Python and the [float64] of numpy:
    53 bits of precision, every operation rounded to nearest, ties to
    even. *)
Definition float64 : Type := spec_float.

Definition prec : Z := 53.
Definition emax : Z := 1024.

(** The conversion of an integer. *)
Definition of_Z (z : Z) : float64 := binary_normalize prec emax z 0 false.
Definition of_nat (n : nat) : float64 := of_Z (Z.of_nat n).

Definition zero : float64 := S754_zero false.

Definition add : float64 -> float64 -> float64 := SFadd prec emax.
Definition sub : float64 -> float64 -> float64 := SFsub prec emax.
Definition mul : float64 -> float64 -> float64 := SFmul prec emax.
Definition div : float64 -> float64 -> float64 := SFdiv prec emax.
Definition sqrt : float64 -> float64 := SFsqrt prec emax.

(** [a < b], [a <= b], [a > b] and [a >= b]: all four are false when an
    operand is [nan]. *)
Definition lt (a b : float64) : bool :=
  match SFcompare a b with
  | Some Lt => true
  | _ => false
  end.

Definition le (a b : float64) : bool :=
  match SFcompare a b with
  | Some Lt | Some Eq => true
  | _ => false
  end.

Definition gt (a b : float64) : bool :=
  match SFcompare a b with
  | Some Gt => true
  | _ => false
  end.

Definition ge (a b : float64) : bool :=
  match SFcompare a b with
  | Some Gt | Some Eq => true
  | _ => false
  end.

(** The decimal literal [num / den], for integers that float64 holds
    exactly: the float64 nearest to the quotient, which is what the
    correctly rounded division returns. *)
Definition literal (num den : Z) : float64 := div (of_Z num) (of_Z den).

End Float64.

(* ================================================================== *)
(** * Volatility of the window, as numpy computes it                    *)
(* ================================================================== *)

Module Volatility64.

Import Float64.

(** [np.array(num_total_clusters_tracking_queue)] where it enters a
    float64 operation: each count converted. *)
Definition np_array (window : list nat) : list float64 := map of_nat window.

(** Adding the elements to an accumulator, left to right. *)
Definition sum_from (acc : float64) (xs : list float64) : float64 :=
  fold_left add xs acc.

(** [r[j] += a[i + j]] for the eight running sums. *)
Fixpoint add_lanes (r xs : list float64) : list float64 :=
  match r, xs with
  | a :: r', x :: xs' => add a x :: add_lanes r' xs'
  | _, _ => r
  end.

(** The unrolled loop: [blocks] further blocks of eight elements. *)
Fixpoint unrolled (blocks : nat) (r xs : list float64)
  : list float64 * list float64 :=
  match blocks with
  | O => (r, xs)
  | S b => unrolled b (add_lanes r (firstn 8 xs)) (skipn 8 xs)
  end.

Definition lane (r : list float64) (i : nat) : float64 := nth i r zero.

(** numpy's pairwise summation for at most 128 elements (longer arrays
    are split in two; a window holds at most 50): fewer than 8 elements
    are added left to right; otherwise eight running sums take the
    elements in turn, are combined as a balanced tree, and the elements
    left over are added one by one. *)
Definition pairwise_sum (xs : list float64) : float64 :=
  let n := length xs in
  if (n <? 8)%nat then sum_from zero xs
  else
    let '(r, rest) := unrolled (n / 8 - 1) (firstn 8 xs) (skipn 8 xs) in
    let res :=
      add (add (add (lane r 0) (lane r 1)) (add (lane r 2) (lane r 3)))
          (add (add (lane r 4) (lane r 5)) (add (lane r 6) (lane r 7))) in
    sum_from res rest.

(** [np.add.reduce]: the pairwise sum added to the initial value [0]. The
    terms summed here are never negative, so that the sign of a zero plays
    no part. *)
Definition np_sum (xs : list float64) : float64 := add zero (pairwise_sum xs).

(** [np.mean(xs)]. *)
Definition np_mean (xs : list float64) : float64 :=
  div (np_sum xs) (of_nat (length xs)).

(** [np.average(values, weights=weights)]:
    [np.multiply(values, weights).sum() / weights.sum()]. *)
Definition np_average (values weights : list float64) : float64 :=
  div (np_sum (map (fun p => mul (fst p) (snd p)) (combine values weights)))
      (np_sum weights).

(** [np.std(xs)]: the square root of the mean of the squared deviations
    from the mean. *)
Definition np_std (xs : list float64) : float64 :=
  let m := np_mean xs in
  let x := map (fun v => sub v m) xs in
  let x := map (fun v => mul v v) x in
  sqrt (div (np_sum x) (of_nat (length xs))).

(** [np.flip(np.true_divide(np.arange(1, time_steps + 1), time_steps))]. *)
Definition weights (time_steps : nat) : list float64 :=
  rev (map (fun k => div (of_nat k) (of_nat time_steps)) (seq 1 time_steps)).

(** [weighted_avg_and_std] (lines 246-250); [** 2] is a product. *)
Definition weighted_avg_and_std (values ws : list float64)
  : float64 * float64 :=
  let average := np_average values ws in
  let variance :=
    np_average (map (fun v => let d := sub v average in mul d d) values) ws in
  (average, sqrt variance).

(** [num_clusters[:10]]. *)
Definition first10 (xs : list float64) : list float64 := firstn 10 xs.

(** Line 275; a division by zero gives [inf] or [nan], as numpy has it. *)
Definition vol (window : list nat) : float64 :=
  let num_clusters := np_array window in
  div (np_std num_clusters) (np_mean (first10 num_clusters)).

(** Lines 276-279. *)
Definition weighted_vol (window : list nat) : float64 :=
  let num_clusters := np_array window in
  let time_steps := length num_clusters in
  let '(_, weighted_std) :=
    weighted_avg_and_std num_clusters (weights time_steps) in
  div weighted_std (np_mean (first10 num_clusters)).

End Volatility64.

(* ================================================================== *)
(** * A small state monad                                               *)
(* ================================================================== *)

Definition State (S A : Type) : Type := S -> A * S.

Definition ret {S A : Type} (a : A) : State S A := fun s => (a, s).

Definition bind {S A B : Type} (c : State S A) (k : A -> State S B)
  : State S B :=
  fun s => let (a, s') := c s in k a s'.

Definition get {S : Type} : State S S := fun s => (s, s).

Definition modify {S : Type} (f : S -> S) : State S unit :=
  fun s => (tt, f s).

(** [if cond: body] with no [else]. *)
Definition when {S : Type} (cond : bool) (body : State S unit)
  : State S unit :=
  if cond then body else ret tt.

Declare Scope state_scope.
Delimit Scope state_scope with state.
Notation "x <- c ;; k" := (bind c (fun x => k))
  (at level 61, c at next level, right associativity) : state_scope.
Notation "c ;; k" := (bind c (fun _ => k))
  (at level 61, right associativity) : state_scope.

(* ================================================================== *)
(** * Retrain signal controller: [training_signal_check]                *)
(* ================================================================== *)

Module Controller.

(** One entry of [normal_periods]. *)
Record StablePeriod : Type := mkPeriod {
  start_ts : Z;
  end_ts : Z
}.

(** [train_payload], the message published on subject ["train"]. *)
Record TrainPayload : Type := mkTrain {
  model_to_train : string;
  time_intervals : list StablePeriod
}.

(** The locals of the coroutine, the global deque
    [num_total_clusters_tracking_queue] it owns, the number of
    [time.time_ns()] calls made so far and the messages it has published
    on ["train"] (oldest first). *)
Record CState : Type := mkCState {
  iteration : nat;
  num_templates_in_last_train : nat;
  train_on_next_chance : bool;
  stable : bool;
  training_start_ts_ns : Z;
  very_first_ts_ns : Z;
  normal_periods : list StablePeriod;
  num_total_clusters_tracking_queue : list nat;
  clock_reads : nat;
  train_outbox : list TrainPayload
}.

Definition set_iteration (v : nat) (s : CState) : CState :=
  mkCState v (num_templates_in_last_train s) (train_on_next_chance s)
    (stable s) (training_start_ts_ns s) (very_first_ts_ns s)
    (normal_periods s) (num_total_clusters_tracking_queue s)
    (clock_reads s) (train_outbox s).

Definition set_num_templates_in_last_train (v : nat) (s : CState) : CState :=
  mkCState (iteration s) v (train_on_next_chance s)
    (stable s) (training_start_ts_ns s) (very_first_ts_ns s)
    (normal_periods s) (num_total_clusters_tracking_queue s)
    (clock_reads s) (train_outbox s).

Definition set_train_on_next_chance (v : bool) (s : CState) : CState :=
  mkCState (iteration s) (num_templates_in_last_train s) v
    (stable s) (training_start_ts_ns s) (very_first_ts_ns s)
    (normal_periods s) (num_total_clusters_tracking_queue s)
    (clock_reads s) (train_outbox s).

Definition set_stable (v : bool) (s : CState) : CState :=
  mkCState (iteration s) (num_templates_in_last_train s)
    (train_on_next_chance s) v (training_start_ts_ns s) (very_first_ts_ns s)
    (normal_periods s) (num_total_clusters_tracking_queue s)
    (clock_reads s) (train_outbox s).

Definition set_training_start_ts_ns (v : Z) (s : CState) : CState :=
  mkCState (iteration s) (num_templates_in_last_train s)
    (train_on_next_chance s) (stable s) v (very_first_ts_ns s)
    (normal_periods s) (num_total_clusters_tracking_queue s)
    (clock_reads s) (train_outbox s).

Definition set_normal_periods (v : list StablePeriod) (s : CState) : CState :=
  mkCState (iteration s) (num_templates_in_last_train s)
    (train_on_next_chance s) (stable s) (training_start_ts_ns s)
    (very_first_ts_ns s) v (num_total_clusters_tracking_queue s)
    (clock_reads s) (train_outbox s).

Definition set_tracking_queue (v : list nat) (s : CState) : CState :=
  mkCState (iteration s) (num_templates_in_last_train s)
    (train_on_next_chance s) (stable s) (training_start_ts_ns s)
    (very_first_ts_ns s) (normal_periods s) v
    (clock_reads s) (train_outbox s).

Definition set_clock_reads (v : nat) (s : CState) : CState :=
  mkCState (iteration s) (num_templates_in_last_train s)
    (train_on_next_chance s) (stable s) (training_start_ts_ns s)
    (very_first_ts_ns s) (normal_periods s)
    (num_total_clusters_tracking_queue s) v (train_outbox s).

Definition set_train_outbox (v : list TrainPayload) (s : CState) : CState :=
  mkCState (iteration s) (num_templates_in_last_train s)
    (train_on_next_chance s) (stable s) (training_start_ts_ns s)
    (very_first_ts_ns s) (normal_periods s)
    (num_total_clusters_tracking_queue s) (clock_reads s) v.

(** The thresholds 0.199, 0.155 and 0.15. *)
Definition thr_high : Q := 199 # 1000.
Definition thr_close : Q := 155 # 1000.
Definition thr_train : Q := 15 # 100.

(** [deque([], 50).appendleft(x)]: the rightmost element falls off once
    the deque holds 50. *)
Definition appendleft (x : nat) (dq : list nat) : list nat :=
  firstn 50 (x :: dq).

(** The value [-1.0] that marks "no period open". *)
Definition no_start : Z := -1.

(** The test of line 264: no sample yet and no cluster yet. *)
Definition skipped (n : nat) (s : CState) : bool :=
  ((length (num_total_clusters_tracking_queue s) =? 0)%nat
   && (n =? 0)%nat)%bool.

(** The state once the sample is counted and pushed (lines 267-268). *)
Definition pushed (n : nat) (s : CState) : CState :=
  set_tracking_queue (appendleft n (num_total_clusters_tracking_queue s))
    (set_iteration (S (iteration s)) s).

(** A stable period is open when the start timestamp is not the marker
    [-1.0] (the test of line 311). *)
Definition period_open (s : CState) : bool :=
  negb (training_start_ts_ns s =? no_start)%Z.

Section WithClock.

Variable clk : nat -> Z.

Local Open Scope state_scope.

(** [time.time_ns()]. *)
Definition time_ns : State CState Z :=
  fun s => (clk (clock_reads s), set_clock_reads (S (clock_reads s)) s).

(** [normal_periods.append({"start_ts": training_start_ts_ns,
                            "end_ts": training_end_ts_ns})]. *)
Definition append_period (training_end_ts_ns : Z) : State CState unit :=
  modify (fun s =>
    set_normal_periods
      (normal_periods s ++
         [mkPeriod (training_start_ts_ns s) training_end_ts_ns]) s).

(** [await nw.publish("train", json.dumps(train_payload).encode())]: the
    payload is serialised at the call, so the message holds the value
    [normal_periods] has at that moment. *)
Definition publish_train : State CState unit :=
  modify (fun s =>
    set_train_outbox
      (train_outbox s ++ [mkTrain "nulog" (normal_periods s)]) s).

(** Lines 252-259: the state before the first iteration. *)
Definition initial : CState :=
  mkCState 0 0 true false (clk 0) (clk 0) [] [] 1 [].

(** One iteration of the [while True] loop (lines 262-324), for the value
    [num_drain_templates] read from [template_miner.drain.clusters]. *)
Definition training_signal_tick (num_drain_templates : nat)
  : State CState unit :=
  s <- get ;;
  if ((length (num_total_clusters_tracking_queue s) =? 0)%nat
      && (num_drain_templates =? 0)%nat)%bool
  then ret tt
  else
    modify (fun s => set_iteration (S (iteration s)) s) ;;
    modify (fun s =>
      set_tracking_queue
        (appendleft num_drain_templates
           (num_total_clusters_tracking_queue s)) s) ;;
    s <- get ;;
    let weighted_vol := weighted_vol (num_total_clusters_tracking_queue s) in
    when (3 <? length (num_total_clusters_tracking_queue s))%nat
      (when (vol_ge weighted_vol thr_high)
         (modify (set_train_on_next_chance true)) ;;
       s <- get ;;
       when (vol_lt weighted_vol thr_high
             && negb (training_start_ts_ns s =? very_first_ts_ns s)%Z
             && train_on_next_chance s)%bool
         (now <- time_ns ;;
          modify (set_training_start_ts_ns now)) ;;
       s <- get ;;
       when (vol_gt weighted_vol thr_close
             && negb (train_on_next_chance s)
             && stable s)%bool
         (training_end_ts_ns <- time_ns ;;
          append_period training_end_ts_ns ;;
          modify (set_stable false) ;;
          modify (set_training_start_ts_ns no_start)) ;;
       s <- get ;;
       when (vol_le weighted_vol thr_train
             && (train_on_next_chance s
                 || (2 * num_templates_in_last_train s
                     <? num_drain_templates)%nat))%bool
         (modify (set_num_templates_in_last_train num_drain_templates) ;;
          s <- get ;;
          when (negb (training_start_ts_ns s =? no_start)%Z)
            (training_end_ts_ns <- time_ns ;;
             append_period training_end_ts_ns) ;;
          publish_train ;;
          modify (set_train_on_next_chance false) ;;
          modify (set_stable true) ;;
          now <- time_ns ;;
          modify (set_training_start_ts_ns now))).

(** The state after one tick. *)
Definition tick (n : nat) (s : CState) : CState :=
  snd (training_signal_tick n s).

(** The loop over a stream of cluster counts, one per wake-up. *)
Definition run (counts : list nat) (s : CState) : CState :=
  fold_left (fun st n => tick n st) counts s.

(** The messages a tick publishes. *)
Definition emitted (n : nat) (s : CState) : list TrainPayload :=
  skipn (length (train_outbox s)) (train_outbox (tick n s)).

End WithClock.

(** ** The tick on float64 *)

(** The literals 0.199, 0.155 and 0.15 as Python reads them. *)
Definition thr_high64 : Float64.float64 := Float64.literal 199 1000.
Definition thr_close64 : Float64.float64 := Float64.literal 155 1000.
Definition thr_train64 : Float64.float64 := Float64.literal 15 100.

Section WithFloat64.

Variable clk : nat -> Z.

(** Lines 274-279: the float64 [weighted_vol] computed from the window;
    [Volatility64.weighted_vol] is numpy's computation. *)
Variable weighted_vol_of : list nat -> Float64.float64.

Local Open Scope state_scope.

(** One iteration of the [while True] loop (lines 262-324), the four
    tests of lines 287, 291, 297 and 305 being float64 comparisons. The
    value [vol] of line 275 is only logged. *)
Definition training_signal_tick64 (num_drain_templates : nat)
  : State CState unit :=
  s <- get ;;
  if ((length (num_total_clusters_tracking_queue s) =? 0)%nat
      && (num_drain_templates =? 0)%nat)%bool
  then ret tt
  else
    modify (fun s => set_iteration (S (iteration s)) s) ;;
    modify (fun s =>
      set_tracking_queue
        (appendleft num_drain_templates
           (num_total_clusters_tracking_queue s)) s) ;;
    s <- get ;;
    let weighted_vol := weighted_vol_of (num_total_clusters_tracking_queue s) in
    when (3 <? length (num_total_clusters_tracking_queue s))%nat
      (when (Float64.ge weighted_vol thr_high64)
         (modify (set_train_on_next_chance true)) ;;
       s <- get ;;
       when (Float64.lt weighted_vol thr_high64
             && negb (training_start_ts_ns s =? very_first_ts_ns s)%Z
             && train_on_next_chance s)%bool
         (now <- time_ns clk ;;
          modify (set_training_start_ts_ns now)) ;;
       s <- get ;;
       when (Float64.gt weighted_vol thr_close64
             && negb (train_on_next_chance s)
             && stable s)%bool
         (training_end_ts_ns <- time_ns clk ;;
          append_period training_end_ts_ns ;;
          modify (set_stable false) ;;
          modify (set_training_start_ts_ns no_start)) ;;
       s <- get ;;
       when (Float64.le weighted_vol thr_train64
             && (train_on_next_chance s
                 || (2 * num_templates_in_last_train s
                     <? num_drain_templates)%nat))%bool
         (modify (set_num_templates_in_last_train num_drain_templates) ;;
          s <- get ;;
          when (negb (training_start_ts_ns s =? no_start)%Z)
            (training_end_ts_ns <- time_ns clk ;;
             append_period training_end_ts_ns) ;;
          publish_train ;;
          modify (set_train_on_next_chance false) ;;
          modify (set_stable true) ;;
          now <- time_ns clk ;;
          modify (set_training_start_ts_ns now))).

(** The state after one tick. *)
Definition tick64 (n : nat) (s : CState) : CState :=
  snd (training_signal_tick64 n s).

(** The loop over a stream of cluster counts. *)
Definition run64 (counts : list nat) (s : CState) : CState :=
  fold_left (fun st n => tick64 n st) counts s.

(** The messages a tick publishes. *)
Definition emitted64 (n : nat) (s : CState) : list TrainPayload :=
  skipn (length (train_outbox s)) (train_outbox (tick64 n s)).

End WithFloat64.

(** ** The four decisions of a tick, one by one

    The statements of lines 287-288, 290-295, 297-303 and 305-324 as state
    transformers, for the weighted volatility [wv] of the tick in exact
    arithmetic. *)

Section Decisions.

Variable clk : nat -> Z.

(** Lines 287-288. *)
Definition mark_awaiting (wv : vol_t) (s : CState) : CState :=
  if vol_ge wv thr_high then set_train_on_next_chance true s else s.

(** Lines 290-295. *)
Definition restart_period (wv : vol_t) (s : CState) : CState :=
  if (vol_lt wv thr_high
      && negb (training_start_ts_ns s =? very_first_ts_ns s)%Z
      && train_on_next_chance s)%bool
  then set_training_start_ts_ns (clk (clock_reads s))
         (set_clock_reads (S (clock_reads s)) s)
  else s.

(** Lines 297-303. *)
Definition close_period (wv : vol_t) (s : CState) : CState :=
  if (vol_gt wv thr_close && negb (train_on_next_chance s) && stable s)%bool
  then set_training_start_ts_ns no_start
         (set_stable false
            (set_normal_periods
               (normal_periods s
                ++ [mkPeriod (training_start_ts_ns s) (clk (clock_reads s))])
               (set_clock_reads (S (clock_reads s)) s)))
  else s.

(** Lines 311-315, inside the trigger. *)
Definition close_open_period (s : CState) : CState :=
  if negb (training_start_ts_ns s =? no_start)%Z
  then set_normal_periods
         (normal_periods s
          ++ [mkPeriod (training_start_ts_ns s) (clk (clock_reads s))])
         (set_clock_reads (S (clock_reads s)) s)
  else s.

(** Lines 305-324. *)
Definition trigger (n : nat) (wv : vol_t) (s : CState) : CState :=
  if (vol_le wv thr_train
      && (train_on_next_chance s
          || (2 * num_templates_in_last_train s <? n)%nat))%bool
  then
    let s1 := close_open_period (set_num_templates_in_last_train n s) in
    let s2 :=
      set_train_outbox
        (train_outbox s1 ++ [mkTrain "nulog" (normal_periods s1)]) s1 in
    let s3 := set_stable true (set_train_on_next_chance false s2) in
    set_training_start_ts_ns (clk (clock_reads s3))
      (set_clock_reads (S (clock_reads s3)) s3)
  else s.

(** The decisions in their order, on the state with the sample pushed. *)
Definition decide (n : nat) (s : CState) : CState :=
  let wv := weighted_vol (num_total_clusters_tracking_queue s) in
  if (3 <? length (num_total_clusters_tracking_queue s))%nat
  then trigger n wv (close_period wv (restart_period wv (mark_awaiting wv s)))
  else s.

End Decisions.

(** The counts that become samples: the zero counts read before the first
    non-zero one are skipped. *)
Fixpoint collected (counts : list nat) : list nat :=
  match counts with
  | 0%nat :: rest => collected rest
  | _ => counts
  end.

(** Each period ends before the next one starts. *)
Fixpoint non_overlapping (ps : list StablePeriod) : Prop :=
  match ps with
  | p :: rest =>
      match rest with
      | q :: _ => end_ts p <= start_ts q
      | [] => True
      end /\ non_overlapping rest
  | [] => True
  end.

(** ** The history as indices of clock readings *)

(** The period from the [i]-th to the [j]-th reading of the clock. *)
Definition period_at (clk : nat -> Z) (ij : nat * nat) : StablePeriod :=
  mkPeriod (clk (fst ij)) (clk (snd ij)).

(** The index of the last end, [lo] for no period. *)
Fixpoint last_end (lo : nat) (idx : list (nat * nat)) : nat :=
  match idx with
  | [] => lo
  | ij :: rest => last_end (snd ij) rest
  end.

(** Each period starts no earlier than the one before it ended and ends no
    earlier than it started. *)
Fixpoint idx_sorted (lo : nat) (idx : list (nat * nat)) : Prop :=
  match idx with
  | [] => True
  | ij :: rest =>
      (lo <= fst ij)%nat /\ (fst ij <= snd ij)%nat /\ idx_sorted (snd ij) rest
  end.

(** The start timestamp for an open period, or the marker of none. *)
Definition start_at (clk : nat -> Z) (open : option nat) : Z :=
  match open with
  | Some i => clk i
  | None => no_start
  end.

(** The timestamps of the state are readings already taken, in order. *)
Definition well_timed (clk : nat -> Z) (s : CState) : Prop :=
  exists (idx : list (nat * nat)) (open : option nat),
    normal_periods s = map (period_at clk) idx
    /\ idx_sorted 0 idx
    /\ training_start_ts_ns s = start_at clk open
    /\ (forall i, open = Some i ->
          (last_end 0 idx <= i)%nat /\ (i < clock_reads s)%nat)
    /\ (last_end 0 idx < clock_reads s)%nat
    /\ (stable s = true -> open <> None).

(** The message is for the model ["nulog"] and its periods are the first
    periods of the history of [s]. *)
Definition carries_a_prefix (s : CState) (m : TrainPayload) : Prop :=
  model_to_train m = "nulog"%string
  /\ exists rest, normal_periods s = time_intervals m ++ rest.

(** A sample clock for the concrete scenarios: the [k]-th reading is
    [1000 + 10 k]. *)
Definition example_clock (k : nat) : Z := 1000 + 10 * Z.of_nat k.

(** A sample stream: twenty-nine counts of a slow climb from 11 to 21. *)
Definition slow_climb : list nat :=
  (repeat 11 4 ++ repeat 13 5 ++ repeat 15 5 ++ repeat 17 5 ++ repeat 19 5
   ++ repeat 21 5)%nat.

End Controller.

Import Controller.

(* ================================================================== *)
(** * Keyword patterns: Python's [re], and the fragment of plain keywords *)
(* ================================================================== *)

Module Regex.

Local Open Scope string_scope.

(** The scoring stage hands its pattern to [re] (through
    [Series.str.contains]). The stage is stated over any engine
    ([RegexEngine] below); this part gives the meaning of the patterns
    made of literal characters, groups, alternation and the start anchor:
    what [(kw1)|(kw2)|...] and the fallback ["a^"] are made of when the
    keywords are plain words. *)
Inductive regex : Type :=
| REps
| RChar (c : ascii)
| RBol
| RSeq (a b : regex)
| RAlt (a b : regex).

(** All the ways [r] matches a prefix of [s]: the rest of the subject
    after each match. [at_start] tells whether the current position is
    position 0 of the subject; without [re.MULTILINE], [^] matches there
    only. *)
Fixpoint rmatch (r : regex) (at_start : bool) (s : string)
  : list (bool * string) :=
  match r with
  | REps => [(at_start, s)]
  | RChar c =>
      match s with
      | String c' s' => if Ascii.eqb c c' then [(false, s')] else []
      | EmptyString => []
      end
  | RBol => if at_start then [(at_start, s)] else []
  | RSeq a b =>
      flat_map (fun p => rmatch b (fst p) (snd p)) (rmatch a at_start s)
  | RAlt a b => rmatch a at_start s ++ rmatch b at_start s
  end.

Definition matches_here (r : regex) (at_start : bool) (s : string) : bool :=
  match rmatch r at_start s with
  | [] => false
  | _ :: _ => true
  end.

(** [re.search] for a pattern of the fragment: a match starting at some
    position of the subject. *)
Fixpoint search_from (r : regex) (at_start : bool) (s : string) : bool :=
  matches_here r at_start s
  || match s with
     | String _ s' => search_from r false s'
     | EmptyString => false
     end.

Definition re_search (r : regex) (s : string) : bool :=
  search_from r true s.

(** The special characters of [re] that the fragment does not cover. *)
Definition unsupported (c : ascii) : bool :=
  existsb (Ascii.eqb c)
    ["."; "$"; "*"; "+"; "?"; "{"; "}"; "["; "]"; "\"]%char.

(** A group being read: the alternatives already closed by a [|] and the
    sequence read since. *)
Definition frame : Type := option regex * regex.

Definition close_frame (f : frame) : regex :=
  match fst f with
  | None => snd f
  | Some alts => RAlt alts (snd f)
  end.

Definition push_atom (f : frame) (r : regex) : frame :=
  (fst f, RSeq (snd f) r).

(** One pass over the pattern with a stack of open groups. [None]: the
    parentheses are unbalanced, or the pattern uses an operator outside
    the fragment (and then says nothing about what [re] does with it). *)
Fixpoint parse (pat : string) (cur : frame) (stack : list frame)
  : option regex :=
  match pat with
  | EmptyString =>
      match stack with
      | [] => Some (close_frame cur)
      | _ :: _ => None
      end
  | String c rest =>
      if Ascii.eqb c "("%char then parse rest (None, REps) (cur :: stack)
      else if Ascii.eqb c ")"%char then
        match stack with
        | [] => None
        | outer :: stack' =>
            parse rest (push_atom outer (close_frame cur)) stack'
        end
      else if Ascii.eqb c "|"%char then
        parse rest (Some (close_frame cur), REps) stack
      else if Ascii.eqb c "^"%char then parse rest (push_atom cur RBol) stack
      else if unsupported c then None
      else parse rest (push_atom cur (RChar c)) stack
  end.

(** The pattern of the fragment that [pat] writes, when it writes one. *)
Definition compile (pat : string) : option regex := parse pat (None, REps) [].

(** Python's [re] as the service uses it: [re_compile pat] is the
    compiled pattern, [None] when [re.compile] raises [re.error];
    [pattern_search p text] tells whether [p.search(text)] finds a
    match. *)
Class RegexEngine : Type := {
  Pattern : Type;
  re_compile : string -> option Pattern;
  pattern_search : Pattern -> string -> bool
}.

(** The engine reads the patterns of the fragment as [compile] and
    [re_search] do. *)
Definition agrees_on_fragment (engine : RegexEngine) : Prop :=
  forall pat r,
    compile pat = Some r ->
    exists p,
      re_compile pat = Some p
      /\ forall text, pattern_search p text = re_search r text.

(** The fragment alone as an engine, for the concrete scenarios: their
    patterns are all patterns of the fragment. *)
#[export] Instance FragmentEngine : RegexEngine := {
  Pattern := regex;
  re_compile := compile;
  pattern_search := re_search
}.

(** [str.split(sep)] for a one-character separator. *)
Fixpoint split (sep : ascii) (s : string) : list string :=
  match s with
  | EmptyString => [EmptyString]
  | String c s' =>
      if Ascii.eqb c sep then EmptyString :: split sep s'
      else match split sep s' with
           | [] => [String c EmptyString]
           | w :: ws => String c w :: ws
           end
  end.

(** The loop of [__main__] (lines 333-340) over the pieces of
    [os.environ["FAIL_KEYWORDS"].split(",")]. *)
Definition add_keyword (fail_keywords_str fail_keyword : string) : string :=
  if (fail_keyword =? "")%string then fail_keywords_str
  else if (0 <? String.length fail_keywords_str)%nat
       then fail_keywords_str ++ "|(" ++ fail_keyword ++ ")"
       else fail_keywords_str ++ "(" ++ fail_keyword ++ ")".

Definition build_fail_keywords_str (env : string) : string :=
  fold_left add_keyword (split ","%char env) "".

(** Lines 102-103: [if not fail_keywords_str: fail_keywords_str = "a^"]. *)
Definition effective_pattern (fail_keywords_str : string) : string :=
  if (fail_keywords_str =? "")%string then "a^" else fail_keywords_str.

(** ** Plain keywords *)

(** The characters that mean something to the pattern compiler. *)
Definition special (c : ascii) : bool :=
  existsb (Ascii.eqb c) ["("; ")"; "|"; "^"]%char || unsupported c.

(** A keyword made of ordinary characters only. *)
Fixpoint plain_word (kw : string) : bool :=
  match kw with
  | EmptyString => true
  | String c rest => negb (special c) && plain_word rest
  end.

(** The pattern read after [acc] for the characters of a plain word. *)
Fixpoint literal_from (acc : regex) (kw : string) : regex :=
  match kw with
  | EmptyString => acc
  | String c rest => literal_from (RSeq acc (RChar c)) rest
  end.

(** The remainders of the subject after the word [kw] at its front. *)
Fixpoint lit_match (kw : string) (p : bool * string) : list (bool * string) :=
  match kw with
  | EmptyString => [p]
  | String c rest =>
      match snd p with
      | String c' s' => if Ascii.eqb c c' then lit_match rest (false, s') else []
      | EmptyString => []
      end
  end.

(** [kw in text] of Python: the word occurs somewhere in the text. *)
Definition occurs_in (kw text : string) : Prop :=
  exists pre post, text = pre ++ kw ++ post.

(** A keyword as it enters the pattern. *)
Definition paren (kw : string) : string := "(" ++ kw ++ ")".

(** The keywords of [FAIL_KEYWORDS] the loop of [__main__] keeps. *)
Definition keywords_of (env : string) : list string :=
  filter (fun kw => negb (kw =? "")%string) (split ","%char env).

End Regex.

Import Regex.

(* ================================================================== *)
(** * The pipeline: ingestion, scoring and persistence                  *)
(* ================================================================== *)

Module Pipeline.

Local Open Scope string_scope.
Local Open Scope list_scope.

(** ** Data *)

(** A row of the batch read from subject ["preprocessed_logs"]. *)
Record LogRecord : Type := mkLog {
  log_id : string;          (* column "_id" *)
  masked_log : string
}.

Inductive ChangeType : Type :=
| cluster_created
| cluster_template_changed
| none.

(** The dictionary [template_miner.add_log_message] returns. *)
Record MinerResult : Type := mkResult {
  change_type : ChangeType;
  cluster_id : Z;
  cluster_size : Z;
  template_mined : string
}.

(** The clustering capability, as the service uses it. *)
Class TemplateMiner (T : Type) : Type := {
  add_log_message : T -> string -> T * MinerResult
}.

(** The dictionary [d] appended to [inferencing_results]. The entry
    ["template_or_change_type"] is [str(result["cluster_id"])] (a [dict]
    never equals the string ["cluster_created"]); it is kept as the
    number. *)
Record InferRow : Type := mkInfer {
  infer_id : string;        (* "_id" *)
  update_type : ChangeType;
  template_or_change_type : Z;
  matched_template : string;
  drain_matched_template_id : Z;
  drain_matched_template_support : Z
}.

(** A row of the prediction payload, and of the frames of the persistence
    queue. *)
Record ScoredRow : Type := mkScored {
  scored_id : string;       (* "_id" *)
  drain_prediction : Z;
  scored_template_id : Z;   (* "drain_matched_template_id" *)
  scored_template_support : Z  (* "drain_matched_template_support" *)
}.

(** A frame of the persistence queue: the rows, and the columns
    ["_op_type"], ["_index"] and ["script"] once they are assigned (one
    value for the whole column). *)
Record Frame : Type := mkFrame {
  rows : list ScoredRow;
  op_type_column : option string;
  index_column : option string;
  script_column : option string
}.

(** What travels on the message bus; the JSON text between [to_json] and
    [read_json] is not modelled. *)
Inductive Payload : Type :=
| LogsPayload (batch : list LogRecord)
| PredictionPayload (batch : list ScoredRow).

Inductive StatusCode : Type :=
| StatusNA                  (* the string "N/A" *)
| StatusHTTP (code : Z).

Inductive exn : Type :=
| KeyError (key : string)
| ReError                   (* re.error *)
| DecodeError
| BulkIndexError
| ConnectionTimeout
| TimeoutError
| TransportError (status_code : StatusCode).

(** What the index answers to one bulk call. *)
Inductive BulkOutcome : Type :=
| BulkOk
| BulkRaises (e : exn).

Inductive DocBody : Type :=
| ScriptBody (script : string)
| FieldsBody (template_id template_support : Z).

(** One action handed to [async_streaming_bulk]. *)
Record Doc : Type := mkDoc {
  doc_id : string;
  doc_op_type : option string;
  doc_index : option string;
  doc_body : DocBody
}.

(** A bulk call: the client it went through and its actions. *)
Record BulkCall : Type := mkBulkCall {
  via_client : nat;
  actions : list Doc
}.

Section WithMiner.

Context {T : Type} `{TemplateMiner T} {engine : RegexEngine}.

(** The process state: the template miner, the three tracking deques, the
    two queues, the messages published so far (oldest first), and the
    index side: clients created, bulk calls received, and the outcomes of
    the bulk calls to come. *)
Record World : Type := mkWorld {
  template_miner : T;
  num_no_templates_change_tracking_queue : list nat;
  num_templates_changed_tracking_queue : list nat;
  num_clusters_created_tracking_queue : list nat;
  incoming_logs_to_train_queue : list (list LogRecord);
  logs_to_update_in_elasticsearch : list Frame;
  nats_published : list (string * Payload);
  es_connections : nat;
  es_bulk_calls : list BulkCall;
  es_outcomes : list BulkOutcome
}.

Definition set_template_miner (v : T) (w : World) : World :=
  mkWorld v (num_no_templates_change_tracking_queue w)
    (num_templates_changed_tracking_queue w)
    (num_clusters_created_tracking_queue w) (incoming_logs_to_train_queue w)
    (logs_to_update_in_elasticsearch w) (nats_published w) (es_connections
    w) (es_bulk_calls w) (es_outcomes w).

Definition set_no_change_queue (v : list nat) (w : World) : World :=
  mkWorld (template_miner w) v (num_templates_changed_tracking_queue w)
    (num_clusters_created_tracking_queue w) (incoming_logs_to_train_queue w)
    (logs_to_update_in_elasticsearch w) (nats_published w) (es_connections
    w) (es_bulk_calls w) (es_outcomes w).

Definition set_changed_queue (v : list nat) (w : World) : World :=
  mkWorld (template_miner w) (num_no_templates_change_tracking_queue w) v
    (num_clusters_created_tracking_queue w) (incoming_logs_to_train_queue w)
    (logs_to_update_in_elasticsearch w) (nats_published w) (es_connections
    w) (es_bulk_calls w) (es_outcomes w).

Definition set_created_queue (v : list nat) (w : World) : World :=
  mkWorld (template_miner w) (num_no_templates_change_tracking_queue w)
    (num_templates_changed_tracking_queue w) v (incoming_logs_to_train_queue
    w) (logs_to_update_in_elasticsearch w) (nats_published w)
    (es_connections w) (es_bulk_calls w) (es_outcomes w).

Definition set_incoming (v : list (list LogRecord)) (w : World) : World :=
  mkWorld (template_miner w) (num_no_templates_change_tracking_queue w)
    (num_templates_changed_tracking_queue w)
    (num_clusters_created_tracking_queue w) v
    (logs_to_update_in_elasticsearch w) (nats_published w) (es_connections
    w) (es_bulk_calls w) (es_outcomes w).

Definition set_to_update (v : list Frame) (w : World) : World :=
  mkWorld (template_miner w) (num_no_templates_change_tracking_queue w)
    (num_templates_changed_tracking_queue w)
    (num_clusters_created_tracking_queue w) (incoming_logs_to_train_queue w)
    v (nats_published w) (es_connections w) (es_bulk_calls w) (es_outcomes
    w).

Definition set_nats_published (v : list (string * Payload)) (w : World) : World :=
  mkWorld (template_miner w) (num_no_templates_change_tracking_queue w)
    (num_templates_changed_tracking_queue w)
    (num_clusters_created_tracking_queue w) (incoming_logs_to_train_queue w)
    (logs_to_update_in_elasticsearch w) v (es_connections w) (es_bulk_calls
    w) (es_outcomes w).

Definition set_es_connections (v : nat) (w : World) : World :=
  mkWorld (template_miner w) (num_no_templates_change_tracking_queue w)
    (num_templates_changed_tracking_queue w)
    (num_clusters_created_tracking_queue w) (incoming_logs_to_train_queue w)
    (logs_to_update_in_elasticsearch w) (nats_published w) v (es_bulk_calls
    w) (es_outcomes w).

Definition set_es_bulk_calls (v : list BulkCall) (w : World) : World :=
  mkWorld (template_miner w) (num_no_templates_change_tracking_queue w)
    (num_templates_changed_tracking_queue w)
    (num_clusters_created_tracking_queue w) (incoming_logs_to_train_queue w)
    (logs_to_update_in_elasticsearch w) (nats_published w) (es_connections
    w) v (es_outcomes w).

Definition set_es_outcomes (v : list BulkOutcome) (w : World) : World :=
  mkWorld (template_miner w) (num_no_templates_change_tracking_queue w)
    (num_templates_changed_tracking_queue w)
    (num_clusters_created_tracking_queue w) (incoming_logs_to_train_queue w)
    (logs_to_update_in_elasticsearch w) (nats_published w) (es_connections
    w) (es_bulk_calls w) v.

(** ** Tasks: state, exceptions and suspension *)

Inductive Result (A : Type) : Type :=
| Returned (a : A)
| Raised (e : exn)
| Suspended.

Arguments Returned {A} a.
Arguments Raised {A} e.
Arguments Suspended {A}.

Definition Task (A : Type) : Type := World -> Result A * World.

Definition tret {A : Type} (a : A) : Task A := fun w => (Returned a, w).

Definition tbind {A B : Type} (c : Task A) (k : A -> Task B) : Task B :=
  fun w =>
    match c w with
    | (Returned a, w') => k a w'
    | (Raised e, w') => (Raised e, w')
    | (Suspended, w') => (Suspended, w')
    end.

Definition raise {A : Type} (e : exn) : Task A := fun w => (Raised e, w).

(** [try: body except ...: handler]; [handler e = None] when no clause
    catches [e]. *)
Definition try_except {A : Type} (body : Task A)
    (handler : exn -> option (Task A)) : Task A :=
  fun w =>
    match body w with
    | (Raised e, w') =>
        match handler e with
        | Some h => h w'
        | None => (Raised e, w')
        end
    | r => r
    end.

(** Calling a coroutine function only builds a coroutine object; [await]
    runs it. *)
Definition await {A : Type} (coroutine : Task A) : Task A := coroutine.

(** An expression statement whose value is a coroutine object: the object
    is dropped and its body never runs. *)
Definition discard {A : Type} (coroutine : Task A) : Task unit := tret tt.

Declare Scope task_scope.
Delimit Scope task_scope with task.
Notation "x <- c ;; k" := (tbind c (fun x => k))
  (at level 61, c at next level, right associativity) : task_scope.
Notation "c ;; k" := (tbind c (fun _ => k))
  (at level 61, right associativity) : task_scope.

Local Open Scope task_scope.

Definition modify_world (f : World -> World) : Task unit :=
  fun w => (Returned tt, f w).

Definition get_world : Task World := fun w => (Returned w, w).

(** ** Queues and the message bus *)

(** [incoming_logs_to_train_queue.get()]: suspends on an empty queue. *)
Definition incoming_get : Task (list LogRecord) :=
  fun w =>
    match incoming_logs_to_train_queue w with
    | [] => (Suspended, w)
    | x :: q => (Returned x, set_incoming q w)
    end.

(** [incoming_logs_to_train_queue.put(x)]; the queues are created without
    [maxsize], so [put] never waits. *)
Definition incoming_put (x : list LogRecord) : Task unit :=
  modify_world (fun w =>
    set_incoming (incoming_logs_to_train_queue w ++ [x]) w).

(** [queue.get()] on [logs_to_update_in_elasticsearch]. *)
Definition to_update_get : Task Frame :=
  fun w =>
    match logs_to_update_in_elasticsearch w with
    | [] => (Suspended, w)
    | x :: q => (Returned x, set_to_update q w)
    end.

(** [queue.put(x)] on [logs_to_update_in_elasticsearch]. *)
Definition to_update_put (x : Frame) : Task unit :=
  modify_world (fun w =>
    set_to_update (logs_to_update_in_elasticsearch w ++ [x]) w).

(** [nw.publish(subject, payload)]. *)
Definition nw_publish (subject : string) (payload : Payload) : Task unit :=
  modify_world (fun w =>
    set_nats_published (nats_published w ++ [(subject, payload)]) w).

(** ** Ingestion: the two handlers of [consume_logs]

    A queue of this model holds the tables of its own kind. The code
    enqueues whatever table [pd.read_json] returns, and a table of the
    other kind would fail later, in the consumer, on its first column
    access; here such a message stops in the handler. Nothing below
    depends on that case. *)

Definition subscribe_handler (msg : Payload) : Task unit :=
  match msg with
  | LogsPayload batch => await (incoming_put batch)
  | PredictionPayload _ => raise DecodeError
  end.

Definition anomalies_subscription_handler (msg : Payload) : Task unit :=
  match msg with
  | PredictionPayload batch =>
      await (to_update_put (mkFrame batch None None None))
  | LogsPayload _ => raise DecodeError
  end.

(** The bus handing a published message to the handler subscribed to its
    subject. *)
Definition deliver (m : string * Payload) : Task unit :=
  if (fst m =? "preprocessed_logs")%string then subscribe_handler (snd m)
  else if (fst m =? "anomalies")%string
       then anomalies_subscription_handler (snd m)
       else tret tt.

(** ** Scoring: one iteration of [train_and_inference] *)

Definition has_text (row : LogRecord) : bool :=
  negb (masked_log row =? "")%string.

(** The body of the [for] loop (lines 68-81) for one row. *)
Definition infer_row (row : LogRecord) (acc : T * list InferRow)
  : T * list InferRow :=
  let log_message := masked_log row in
  if has_text row then
    let (miner, result) := add_log_message (fst acc) log_message in
    let d := mkInfer (log_id row) (change_type result) (cluster_id result)
               (template_mined result) (cluster_id result)
               (cluster_size result) in
    (miner, snd acc ++ [d])
  else acc.

(** Lines 66-81: [inferencing_results] and the miner after the loop. *)
Definition inferencing_loop (payload_data_df : list LogRecord) (miner : T)
  : T * list InferRow :=
  fold_left (fun acc row => infer_row row acc) payload_data_df (miner, []).

Definition change_type_eqb (a b : ChangeType) : bool :=
  match a, b with
  | cluster_created, cluster_created => true
  | cluster_template_changed, cluster_template_changed => true
  | none, none => true
  | _, _ => false
  end.

(** [df["update_type"].value_counts().to_dict()], read at one key: the
    number of rows of that type, the key being present when it is not
    zero. *)
Definition update_count (df : list InferRow) (k : ChangeType) : nat :=
  length (filter (fun d => change_type_eqb (update_type d) k) df).

(** [deque([], 50).appendleft(x)]. *)
Definition deque_appendleft (x : nat) (dq : list nat) : list nat :=
  firstn 50 (x :: dq).

(** Lines 87-98. *)
Definition track_counts (df : list InferRow) (w : World) : World :=
  let w1 :=
    if (0 <? update_count df cluster_created)%nat
    then set_created_queue
           (deque_appendleft (update_count df cluster_created)
              (num_clusters_created_tracking_queue w)) w
    else w in
  let w2 :=
    if (0 <? update_count df cluster_template_changed)%nat
    then set_changed_queue
           (deque_appendleft (update_count df cluster_template_changed)
              (num_templates_changed_tracking_queue w1)) w1
    else w1 in
  if (0 <? update_count df none)%nat
  then set_no_change_queue
         (deque_appendleft (update_count df none)
            (num_no_templates_change_tracking_queue w2)) w2
  else w2.

(** The mask of lines 104-109 for one row: [&] binds tighter than [|]. *)
Definition anomaly_mask (pattern : Pattern) (d : InferRow) : bool :=
  ((drain_matched_template_support d <=? 10)%Z
   && negb (drain_matched_template_support d =? 10)%Z)
  || pattern_search pattern (matched_template d).

(** The row of the prediction payload (lines 101-119). *)
Definition score (pattern : Pattern) (d : InferRow) : ScoredRow :=
  mkScored (infer_id d) (if anomaly_mask pattern d then 1 else 0)
    (drain_matched_template_id d) (drain_matched_template_support d).

(** One iteration of the [while True] loop of [train_and_inference]; the
    value returned is the local [fail_keywords_str] for the next one. *)
Definition train_and_inference_iteration (fail_keywords_str : string)
  : Task string :=
  payload_data_df <- await incoming_get ;;
  w <- get_world ;;
  let (miner, inferencing_results) :=
    inferencing_loop payload_data_df (template_miner w) in
  modify_world (set_template_miner miner) ;;
  let df := inferencing_results in
  (* df["update_type"] on a frame built from no row: no such column *)
  match df with
  | [] => raise (KeyError "update_type")
  | _ :: _ =>
      modify_world (track_counts df) ;;
      let fail_keywords_str := effective_pattern fail_keywords_str in
      match re_compile fail_keywords_str with
      | None => raise ReError
      | Some pattern =>
          let prediction_payload := PredictionPayload (map (score pattern) df) in
          await (nw_publish "anomalies" prediction_payload) ;;
          tret fail_keywords_str
      end
  end.

(** ** Persistence: one iteration of [update_es_logs] *)

(** [setup_es_connection()]: a new client, named by its number. *)
Definition setup_es_connection : Task nat :=
  fun w =>
    (Returned (S (es_connections w)),
     set_es_connections (S (es_connections w)) w).

(** [async_streaming_bulk(es, actions, ...)] run to its end: the call
    reaches the index, which answers with the next outcome (success when
    none is scheduled). *)
Definition async_streaming_bulk (es : nat) (docs : list Doc) : Task unit :=
  fun w =>
    let w' := set_es_bulk_calls (es_bulk_calls w ++ [mkBulkCall es docs]) w in
    match es_outcomes w with
    | [] => (Returned tt, w')
    | BulkOk :: rest => (Returned tt, set_es_outcomes rest w')
    | BulkRaises e :: rest => (Raised e, set_es_outcomes rest w')
    end.

Definition script : string :=
  "ctx._source.anomaly_predicted_count += 1; ctx._source.drain_anomaly = true; ctx._source.anomaly_level = ctx._source.anomaly_predicted_count == 1 ? 'Suspicious' : ctx._source.anomaly_predicted_count == 2 ? 'Anomaly' : 'Normal';".

(** [doc_generator_anomaly(anomaly_df[["_id", "_op_type", "_index",
    "script"]])]. *)
Definition doc_generator_anomaly (df : Frame) : list Doc :=
  map (fun r =>
         mkDoc (scored_id r) (op_type_column df) (index_column df)
           (ScriptBody (match script_column df with
                        | Some sc => sc
                        | None => ""
                        end)))
      (rows df).

(** [doc_generator(df[["_id", "_op_type", "_index",
    "drain_matched_template_id", "drain_matched_template_support"]])]. *)
Definition doc_generator (df : Frame) : list Doc :=
  map (fun r =>
         mkDoc (scored_id r) (op_type_column df) (index_column df)
           (FieldsBody (scored_template_id r) (scored_template_support r)))
      (rows df).

(** Lines 205-209 and 238-242. *)
Definition on_transport_error (es : nat) (status_code : StatusCode)
  : Task nat :=
  match status_code with
  | StatusNA => await setup_es_connection
  | StatusHTTP _ => tret es
  end.

(** Lines 171-172: [df["_op_type"] = "update"; df["_index"] = "logs"]. *)
Definition tagged (df : Frame) : Frame :=
  mkFrame (rows df) (Some "update") (Some "logs") (script_column df).

Definition anomalous (r : ScoredRow) : bool := (drain_prediction r =? 1)%Z.

(** Line 175: [df[df["drain_prediction"] == 1]], a frame of its own. *)
Definition select_anomalies (df : Frame) : Frame :=
  mkFrame (filter anomalous (rows df)) (op_type_column df) (index_column df)
    (script_column df).

(** Line 184: [anomaly_df["script"] = script]. *)
Definition with_script (df : Frame) : Frame :=
  mkFrame (rows df) (op_type_column df) (index_column df) (Some script).

(** One iteration of the [while True] loop of [update_es_logs] with the
    client [es]; the value returned is the client for the next one. *)
Definition update_es_logs_iteration (es : nat) : Task nat :=
  df <- await to_update_get ;;
  let df := tagged df in
  let anomaly_df := select_anomalies df in
  es <- (if (length (rows anomaly_df) =? 0)%nat then tret es
         else
           let anomaly_df := with_script anomaly_df in
           try_except
             (async_streaming_bulk es (doc_generator_anomaly anomaly_df) ;;
              tret es)
             (fun exception =>
                match exception with
                | BulkIndexError | ConnectionTimeout | TimeoutError =>
                    Some (discard (to_update_put anomaly_df) ;; tret es)
                | TransportError status_code =>
                    Some (on_transport_error es status_code)
                | _ => None
                end)) ;;
  try_except
    (async_streaming_bulk es (doc_generator df) ;;
     tret es)
    (fun exception =>
       match exception with
       | BulkIndexError | ConnectionTimeout =>
           Some (discard (to_update_put df) ;; tret es)
       | TransportError status_code =>
           Some (on_transport_error es status_code)
       | _ => None
       end).

(** The action of the field update for one row, as the persistence stage
    sends it. *)
Definition field_action (r : ScoredRow) : Doc :=
  mkDoc (scored_id r) (Some "update") (Some "logs")
    (FieldsBody (scored_template_id r) (scored_template_support r)).

(** The action of the scripted update for one row. *)
Definition script_action (r : ScoredRow) : Doc :=
  mkDoc (scored_id r) (Some "update") (Some "logs") (ScriptBody script).

(** The exceptions caught around the scripted update (lines 199 and
    205). *)
Definition caught_on_scripted_update (e : exn) : bool :=
  match e with
  | BulkIndexError | ConnectionTimeout | TimeoutError | TransportError _ =>
      true
  | _ => false
  end.

(** ** The specification's reading of the scoring loop *)

(** The miner once the messages of [texts] have been added, in order. *)
Definition miner_after (miner : T) (texts : list LogRecord) : T :=
  fold_left (fun m row => fst (add_log_message m (masked_log row)))
    texts miner.

(** One classification per record, in order, the miner threaded through:
    what "invoke the clustering capability per record with text" says,
    applied to the records that have text. *)
Fixpoint classify_all (miner : T) (texts : list LogRecord)
  : T * list InferRow :=
  match texts with
  | [] => (miner, [])
  | row :: rest =>
      let (miner1, result) := add_log_message miner (masked_log row) in
      let (miner2, ds) := classify_all miner1 rest in
      (miner2,
       mkInfer (log_id row) (change_type result) (cluster_id result)
         (template_mined result) (cluster_id result) (cluster_size result)
       :: ds)
  end.

End WithMiner.

Arguments World T : clear implicits.
Arguments Task T A : clear implicits.
Arguments Returned {A} a.
Arguments Raised {A} e.
Arguments Suspended {A}.

(** ** A stand-in miner for the concrete scenarios *)

(** Clusters are exact messages with their sizes; a message seen before
    joins its cluster, a new one opens the next cluster. *)
Fixpoint example_add (clusters : list (string * Z)) (next_id : Z)
    (msg : string) : list (string * Z) * MinerResult :=
  match clusters with
  | [] => ([(msg, 1)], mkResult cluster_created next_id 1 msg)
  | (template, size) :: rest =>
      if (template =? msg)%string
      then ((template, size + 1) :: rest,
            mkResult none next_id (size + 1) template)
      else let (rest', result) := example_add rest (next_id + 1) msg in
           ((template, size) :: rest', result)
  end.

#[export] Instance ExampleMiner : TemplateMiner (list (string * Z)) := {
  add_log_message clusters msg := example_add clusters 1 msg
}.

(** An idle process with one batch waiting on the ingestion queue. *)
Definition example_world (batch : list LogRecord)
  : World (list (string * Z)) :=
  mkWorld [] [] [] [] [batch] [] [] 1 [] [].

(** An idle process with one frame waiting on the persistence queue and
    the outcomes of the coming bulk calls. *)
Definition example_persisting (df : Frame) (outcomes : list BulkOutcome)
  : World (list (string * Z)) :=
  mkWorld [] [] [] [] [] [df] [] 1 [] outcomes.

End Pipeline.

Import Pipeline.


(* ================================================================== *)
(** * Proofs                                                            *)
(* ================================================================== *)

Section ControllerFacts.

Variable clk : nat -> Z.

Lemma skipn_length_app {A : Type} (l l' : list A) :
  skipn (length l) (l ++ l') = l'.
Proof. induction l as [|a l IH]; simpl; auto. Qed.

Ltac state_simpl :=
  cbn [iteration num_templates_in_last_train train_on_next_chance stable
       training_start_ts_ns very_first_ts_ns normal_periods
       num_total_clusters_tracking_queue clock_reads train_outbox
       set_iteration set_num_templates_in_last_train
       set_train_on_next_chance set_stable set_training_start_ts_ns
       set_normal_periods set_tracking_queue set_clock_reads
       set_train_outbox fst snd time_intervals model_to_train
       start_ts end_ts] in *.

Ltac tick_cases :=
  cbv [tick emitted training_signal_tick bind ret get modify when time_ns
       append_period publish_train];
  repeat match goal with
  | |- context [if ?b then _ else _] => destruct b eqn:?
  end; state_simpl.


Lemma gt_close_not_le_train v :
  vol_gt v thr_close = true -> vol_le v thr_train = false.
Proof.
  destruct v as [q| |]; simpl; try discriminate; auto.
  unfold Qltb. intros H. apply negb_true_iff in H.
  destruct (Qle_bool q (thr_train * thr_train)) eqn:E; auto.
  apply Qle_bool_iff in E.
  assert (L : (thr_train * thr_train <= thr_close * thr_close)%Q)
    by (unfold Qle; simpl; lia).
  assert (E' : Qle_bool q (thr_close * thr_close) = true)
    by (apply Qle_bool_iff; eapply Qle_trans; eauto).
  congruence.
Qed.

Lemma lt_high_not_ge_high v :
  vol_lt v thr_high = true -> vol_ge v thr_high = false.
Proof.
  destruct v as [q| |]; simpl; try discriminate.
  unfold Qltb. intros H. apply negb_true_iff in H.
  destruct (Qle_bool (thr_high * thr_high) q) eqn:E; auto.
Qed.

(** The window after a tick: untouched when the tick is skipped, the new
    sample pushed on the left otherwise. *)
Lemma tick_window n s :
  num_total_clusters_tracking_queue (tick clk n s)
  = if skipped n s then num_total_clusters_tracking_queue s
    else appendleft n (num_total_clusters_tracking_queue s).
Proof.
  destruct s. unfold skipped. tick_cases; reflexivity.
Qed.

Lemma tick_skipped n s : skipped n s = true -> tick clk n s = s.
Proof.
  destruct s. unfold skipped. cbn. intros H.
  cbv [tick training_signal_tick bind ret get]. cbn. rewrite H. reflexivity.
Qed.

Lemma tick_few_samples n s :
  (length (num_total_clusters_tracking_queue (tick clk n s)) <= 3)%nat ->
  train_outbox (tick clk n s) = train_outbox s
  /\ normal_periods (tick clk n s) = normal_periods s
  /\ clock_reads (tick clk n s) = clock_reads s.
Proof.
  destruct s. 
  tick_cases; intros; repeat split; try reflexivity;
  match goal with
  | H : (3 <? _)%nat = true |- _ => apply Nat.ltb_lt in H; lia
  end.
Qed.







Ltac bool_facts :=
  repeat match goal with
  | H : (_ && _)%bool = true |- _ => apply andb_true_iff in H; destruct H
  | H : (_ <? _)%nat = true |- _ => apply Nat.ltb_lt in H
  | H : (_ =? _)%nat = true |- _ => apply Nat.eqb_eq in H
  | H : (_ =? _)%nat = false |- _ => apply Nat.eqb_neq in H
  | H : (_ <? _)%nat = false |- _ => apply Nat.ltb_ge in H
  | H : negb _ = true |- _ => apply negb_true_iff in H
  | H : negb _ = false |- _ => apply negb_false_iff in H
  | H : (_ =? _)%Z = true |- _ => apply Z.eqb_eq in H
  | H : (_ =? _)%Z = false |- _ => apply Z.eqb_neq in H
  end.


(** C2, as the code has it. The history is only ever extended, by at most
    one period per tick, also on the ticks that publish a train event: it
    is never cleared, and the event published carries exactly the history
    as it stands after the tick. *)
Theorem C2_history_never_cleared (n : nat) (s : CState) :
  let s' := tick clk n s in
  (exists added,
      normal_periods s' = normal_periods s ++ added
      /\ (length added <= 1)%nat)
  /\ (forall m, In m (emitted clk n s) ->
        time_intervals m = normal_periods s').
Proof.
  intros s'. subst s'. destruct s. unfold emitted.
  tick_cases; rewrite ?skipn_length_app; cbn [skipn length];
    (split;
     [ try solve [ exists []; rewrite app_nil_r; split;
                   [reflexivity | simpl; lia]
                 | eexists; split; [reflexivity | simpl; lia] ]
     | try solve [ intros m [<-|[]]; reflexivity
                 | intros m Hin;
                   match goal with
                   | H : In _ (skipn (length ?l) ?l) |- _ =>
                       rewrite <- (app_nil_r l) in H at 2;
                       rewrite skipn_length_app in H; destruct H
                   end ] ]).
  all: exfalso; bool_facts;
    match goal with
    | H : vol_gt _ thr_close = true |- _ =>
        apply gt_close_not_le_train in H; congruence
    end.
Qed.

(* ------------------------------------------------------------------ *)
(** ** The tick on float64                                              *)
(* ------------------------------------------------------------------ *)

(** The three thresholds, bit for bit: 0x1.978d4fdf3b646p-3,
    0x1.3d70a3d70a3d7p-3 and 0x1.3333333333333p-3. *)
Lemma thr_high64_bits :
  thr_high64 = S754_finite false 7169730606773830 (-55).
Proof. vm_compute. reflexivity. Qed.

Lemma thr_close64_bits :
  thr_close64 = S754_finite false 5584463537939415 (-55).
Proof. vm_compute. reflexivity. Qed.

Lemma thr_train64_bits :
  thr_train64 = S754_finite false 5404319552844595 (-55).
Proof. vm_compute. reflexivity. Qed.

Ltac order64 f m :=
  unfold Float64.ge, Float64.gt, Float64.lt, Float64.le;
  destruct f as [sg|sg| |sg m e']; try destruct sg; cbn [SFcompare];
  try discriminate; try reflexivity;
  match goal with
  | |- context [Z.compare e' ?e] => destruct (Z.compare e' e)
  end; try discriminate; try reflexivity;
  change (PosDef.Pos.compare_cont Eq m) with (Pos.compare m);
  repeat match goal with
  | |- context [Pos.compare m ?c] =>
      let E := fresh "E" in
      pose proof (Pos.compare_spec m c) as E;
      destruct (Pos.compare m c); inversion E; clear E
  end; try discriminate; try reflexivity; intros; try lia.

(** Against positive float64 of one exponent the comparisons go by the
    mantissas, whatever the other operand is ([nan] included). *)
Lemma lt_not_ge (f : Float64.float64) (m : positive) (e : Z) :
  Float64.lt f (S754_finite false m e) = true ->
  Float64.ge f (S754_finite false m e) = false.
Proof. order64 f mf. Qed.

Lemma ge_not_lt (f : Float64.float64) (m : positive) (e : Z) :
  Float64.ge f (S754_finite false m e) = true ->
  Float64.lt f (S754_finite false m e) = false.
Proof. order64 f mf. Qed.

Lemma ge_not_le (f : Float64.float64) (m1 m2 : positive) (e : Z) :
  (m2 < m1)%positive ->
  Float64.ge f (S754_finite false m1 e) = true ->
  Float64.le f (S754_finite false m2 e) = false.
Proof. intros Hm. order64 f mf. Qed.

Lemma gt_not_le (f : Float64.float64) (m1 m2 : positive) (e : Z) :
  (m2 <= m1)%positive ->
  Float64.gt f (S754_finite false m1 e) = true ->
  Float64.le f (S754_finite false m2 e) = false.
Proof. intros Hm. order64 f mf. Qed.

Lemma lt_high_not_ge_high64 (f : Float64.float64) :
  Float64.lt f thr_high64 = true -> Float64.ge f thr_high64 = false.
Proof. rewrite thr_high64_bits. apply lt_not_ge. Qed.

Lemma ge_high_not_lt_high64 (f : Float64.float64) :
  Float64.ge f thr_high64 = true -> Float64.lt f thr_high64 = false.
Proof. rewrite thr_high64_bits. apply ge_not_lt. Qed.

Lemma ge_high_not_le_train64 (f : Float64.float64) :
  Float64.ge f thr_high64 = true -> Float64.le f thr_train64 = false.
Proof.
  rewrite thr_high64_bits, thr_train64_bits. apply ge_not_le. reflexivity.
Qed.

Lemma gt_close_not_le_train64 (f : Float64.float64) :
  Float64.gt f thr_close64 = true -> Float64.le f thr_train64 = false.
Proof.
  rewrite thr_close64_bits, thr_train64_bits. apply gt_not_le. discriminate.
Qed.

Section Float64Tick.

Variable weighted_vol_of : list nat -> Float64.float64.

Ltac tick64_cases :=
  cbv [tick64 emitted64 training_signal_tick64 bind ret get modify when
       time_ns append_period publish_train];
  repeat match goal with
  | |- context [if ?b then _ else _] => destruct b eqn:?
  end; state_simpl.

(** C3, as the code has it. Whatever float64 the window gives for the
    weighted volatility: on a tick with at least four samples and a cluster
    count above twice the count of the last retrain, a train event is
    published exactly when the test [weighted_vol <= 0.15] of line 305
    holds; while it fails nothing is published, whatever the cluster
    count. *)
Theorem C3_escape_hatch_needs_low_volatility (n : nat) (s : CState) :
  let s' := tick64 clk weighted_vol_of n s in
  let weighted_vol := weighted_vol_of (num_total_clusters_tracking_queue s') in
  (3 < length (num_total_clusters_tracking_queue s'))%nat ->
  (2 * num_templates_in_last_train s < n)%nat ->
  (Float64.le weighted_vol thr_train64 = false ->
     emitted64 clk weighted_vol_of n s = [])
  /\ (Float64.le weighted_vol thr_train64 = true ->
        emitted64 clk weighted_vol_of n s
        = [mkTrain "nulog" (normal_periods s')]
        /\ num_templates_in_last_train s' = n).
Proof.
  intros s' wv. subst s' wv. destruct s. unfold emitted64.
  tick64_cases; rewrite ?skipn_length_app; intros Hlen Hn;
    (split; intros Hv;
     try solve [ reflexivity | split; reflexivity ]);
    try (rewrite Hv in *); cbn [andb orb] in *; try discriminate;
    bool_facts; try lia.
  all: try match goal with
    | H : (_ || _)%bool = false |- _ =>
        apply orb_false_iff in H; destruct H; bool_facts; lia
    end.
  all: try match goal with
    | |- skipn (length ?l) ?l = [] =>
        rewrite <- (app_nil_r l) at 2; apply skipn_length_app
    end.
Qed.

(** C8, as the code has it. Whatever float64 the window gives for the
    weighted volatility: on a tick with at least four samples where the
    test [weighted_vol < 0.199] of line 291 holds and a retrain is awaited,
    the start timestamp is set to the current time whenever it differs from
    the very first timestamp of the controller; when it equals that first
    timestamp the rule does nothing (and, without a trigger on the same
    tick, the tick only records the sample). The gate compares with the
    very first timestamp, not with the marker of "no period open". *)
Theorem C8_start_gate_is_first_timestamp (n : nat) (s : CState) :
  let s' := tick64 clk weighted_vol_of n s in
  let weighted_vol := weighted_vol_of (num_total_clusters_tracking_queue s') in
  (3 < length (num_total_clusters_tracking_queue s'))%nat ->
  Float64.lt weighted_vol thr_high64 = true ->
  train_on_next_chance s = true ->
  (training_start_ts_ns s <> very_first_ts_ns s ->
     (clock_reads s < clock_reads s')%nat
     /\ training_start_ts_ns s' = clk (pred (clock_reads s'))
     /\ (Float64.le weighted_vol thr_train64 = false ->
           training_start_ts_ns s' = clk (clock_reads s)
           /\ clock_reads s' = S (clock_reads s)))
  /\ (training_start_ts_ns s = very_first_ts_ns s ->
      Float64.le weighted_vol thr_train64 = false ->
      s' = pushed n s).
Proof.
  intros s' wv. subst s' wv. destruct s. unfold pushed.
  tick64_cases; intros Hlen Hlt Htonc; subst;
    try (apply lt_high_not_ge_high64 in Hlt as Hge);
    try (rewrite Hlt in *); try (rewrite Hge in *);
    cbn [andb orb negb] in *; try discriminate;
    bool_facts; try lia;
    (split; [intros Hne | intros He Hv];
     try (rewrite Hv in *); try discriminate; try congruence;
     try solve [ repeat split; try reflexivity; try lia; congruence ]).
Qed.

(** X2. A tick with at least four samples on which the test
    [weighted_vol >= 0.199] of line 287 holds only marks that a retrain is
    awaited: beside the sample and the iteration counter nothing else
    changes; no period is closed or opened, nothing is published, the
    clock is not read. *)
Theorem high_volatility_only_marks_awaiting (n : nat) (s : CState) :
  let s' := tick64 clk weighted_vol_of n s in
  (3 < length (num_total_clusters_tracking_queue s'))%nat ->
  Float64.ge (weighted_vol_of (num_total_clusters_tracking_queue s'))
    thr_high64 = true ->
  s' = set_train_on_next_chance true (pushed n s).
Proof.
  intros s'. subst s'. destruct s. unfold pushed.
  tick64_cases; intros Hlen Hge;
    try (apply ge_high_not_lt_high64 in Hge as Hlt);
    try (apply ge_high_not_le_train64 in Hge as Hle);
    try (rewrite Hlt in *); try (rewrite Hge in *); try (rewrite Hle in *);
    cbn [andb orb negb] in *; try discriminate;
    bool_facts; try lia; try reflexivity.
Qed.

(** X3. The closing of a stable period: with at least four samples, the
    tests [weighted_vol > 0.155] of line 297 and [weighted_vol < 0.199] of
    line 291 both holding, no retrain awaited and the controller stable,
    the tick appends the period from the current start to the clock
    reading, leaves the stable state with no period open, and publishes
    nothing. *)
Theorem stable_period_closed_on_rising_volatility (n : nat) (s : CState) :
  let s' := tick64 clk weighted_vol_of n s in
  let weighted_vol := weighted_vol_of (num_total_clusters_tracking_queue s') in
  (3 < length (num_total_clusters_tracking_queue s'))%nat ->
  Float64.gt weighted_vol thr_close64 = true ->
  Float64.lt weighted_vol thr_high64 = true ->
  train_on_next_chance s = false ->
  stable s = true ->
  normal_periods s'
  = normal_periods s
    ++ [mkPeriod (training_start_ts_ns s) (clk (clock_reads s))]
  /\ stable s' = false
  /\ training_start_ts_ns s' = no_start
  /\ train_on_next_chance s' = false
  /\ clock_reads s' = S (clock_reads s)
  /\ train_outbox s' = train_outbox s.
Proof.
  intros s' wv. subst s' wv. destruct s.
  tick64_cases; intros Hlen Hgt Hlt Ht Hst; subst;
    try (apply lt_high_not_ge_high64 in Hlt as Hge);
    try (apply gt_close_not_le_train64 in Hgt as Hle);
    try (rewrite Hlt in *); try (rewrite Hge in *); try (rewrite Hle in *);
    try (rewrite Hgt in *);
    cbn [andb orb negb] in *; try discriminate;
    bool_facts; try lia; repeat split.
Qed.

End Float64Tick.

(* ------------------------------------------------------------------ *)
(** ** The tick as a composition of its decisions                       *)
(* ------------------------------------------------------------------ *)

Ltac decide_cases :=
  cbv [decide trigger close_open_period close_period restart_period
       mark_awaiting];
  repeat match goal with
  | |- context [if ?b then _ else _] => destruct b eqn:?
  end; state_simpl.

Lemma tick_decide n s :
  tick clk n s = if skipped n s then s else decide clk n (pushed n s).
Proof.
  destruct s. unfold skipped, pushed, decide, trigger, close_open_period,
    close_period, restart_period, mark_awaiting.
  state_simpl.
  cbv [tick training_signal_tick bind ret get modify when time_ns
       append_period publish_train].
  state_simpl.
  repeat match goal with
  | |- context [if ?b then _ else _] => destruct b eqn:?; state_simpl
  end; reflexivity.
Qed.

Lemma ge_high_not_lt_high v :
  vol_ge v thr_high = true -> vol_lt v thr_high = false.
Proof.
  destruct v as [q| |]; simpl; auto.
  unfold Qltb. intros ->. reflexivity.
Qed.

Lemma ge_high_not_le_train v :
  vol_ge v thr_high = true -> vol_le v thr_train = false.
Proof.
  destruct v as [q| |]; simpl; auto.
  intros Hge. apply Qle_bool_iff in Hge.
  destruct (Qle_bool q (thr_train * thr_train)) eqn:E; auto.
  apply Qle_bool_iff in E.
  assert (L : (thr_high * thr_high <= thr_train * thr_train)%Q)
    by (eapply Qle_trans; eauto).
  unfold Qle in L; simpl in L; lia.
Qed.

Lemma decide_window n s :
  num_total_clusters_tracking_queue (decide clk n s)
  = num_total_clusters_tracking_queue s.
Proof. destruct s. decide_cases; reflexivity. Qed.

(** A tick that leaves more than three samples was not skipped and ran the
    decisions on the pushed state. *)
Lemma tick_sampled n s :
  (3 < length (num_total_clusters_tracking_queue (tick clk n s)))%nat ->
  tick clk n s = decide clk n (pushed n s)
  /\ num_total_clusters_tracking_queue (tick clk n s)
     = num_total_clusters_tracking_queue (pushed n s)
  /\ (3 <? length (num_total_clusters_tracking_queue (pushed n s)))%nat
     = true.
Proof.
  rewrite tick_decide. destruct (skipped n s) eqn:Hs.
  - unfold skipped in Hs. apply andb_true_iff in Hs. destruct Hs as [Hl _].
    apply Nat.eqb_eq in Hl. rewrite Hl. cbn. lia.
  - rewrite decide_window. intros Hlen. repeat split.
    apply Nat.ltb_lt. exact Hlen.
Qed.

Lemma before_trigger_flags wv s :
  let s3 := close_period clk wv (restart_period clk wv (mark_awaiting wv s)) in
  train_on_next_chance s3 = (vol_ge wv thr_high || train_on_next_chance s)%bool
  /\ num_templates_in_last_train s3 = num_templates_in_last_train s
  /\ train_outbox s3 = train_outbox s.
Proof.
  destruct s. cbv [close_period restart_period mark_awaiting].
  repeat match goal with
  | |- context [if ?b then _ else _] => destruct b eqn:?; state_simpl
  end; repeat split.
Qed.

Lemma trigger_untaken n wv s :
  (vol_le wv thr_train
   && (train_on_next_chance s
       || (2 * num_templates_in_last_train s <? n)%nat))%bool = false ->
  trigger clk n wv s = s.
Proof. unfold trigger. intros ->. reflexivity. Qed.

(** With no retrain awaited and a count at most twice the count of the
    last retrain, a tick publishes nothing, whatever the volatility. *)
Lemma no_trigger_without_cause n s :
  train_on_next_chance s = false ->
  (n <= 2 * num_templates_in_last_train s)%nat ->
  train_outbox (tick clk n s) = train_outbox s.
Proof.
  intros Ht Hn. rewrite tick_decide.
  destruct (skipped n s); [reflexivity|].
  unfold decide.
  destruct (3 <? _)%nat; [|destruct s; reflexivity].
  set (wv := weighted_vol _).
  destruct (before_trigger_flags wv (pushed n s)) as (Hf & Hl & Ho).
  rewrite trigger_untaken.
  - rewrite Ho. destruct s; reflexivity.
  - rewrite Hf, Hl.
    replace (train_on_next_chance (pushed n s)) with false
      by (destruct s; cbn in *; congruence).
    replace (num_templates_in_last_train (pushed n s))
      with (num_templates_in_last_train s) by (destruct s; reflexivity).
    rewrite orb_false_r.
    destruct (vol_le wv thr_train) eqn:Hle; [|reflexivity].
    destruct (vol_ge wv thr_high) eqn:Hge.
    + apply ge_high_not_le_train in Hge. congruence.
    + cbn. apply Nat.ltb_ge. exact Hn.
Qed.

Lemma trigger_taken n wv s :
  (vol_le wv thr_train
   && (train_on_next_chance s
       || (2 * num_templates_in_last_train s <? n)%nat))%bool = true ->
  let s' := trigger clk n wv s in
  train_on_next_chance s' = false
  /\ stable s' = true
  /\ num_templates_in_last_train s' = n
  /\ train_outbox s' = train_outbox s ++ [mkTrain "nulog" (normal_periods s')]
  /\ training_start_ts_ns s' = clk (pred (clock_reads s')).
Proof.
  intros Hc. unfold trigger. rewrite Hc. unfold close_open_period.
  destruct s. state_simpl.
  destruct (negb _); state_simpl; repeat split.
Qed.

(** A tick either leaves the outbox alone or is a trigger. *)
Lemma tick_outbox_cases n s :
  train_outbox (tick clk n s) = train_outbox s
  \/ (train_on_next_chance (tick clk n s) = false
      /\ stable (tick clk n s) = true
      /\ num_templates_in_last_train (tick clk n s) = n
      /\ train_outbox (tick clk n s)
         = train_outbox s
           ++ [mkTrain "nulog" (normal_periods (tick clk n s))]
      /\ training_start_ts_ns (tick clk n s)
         = clk (pred (clock_reads (tick clk n s)))).
Proof.
  rewrite tick_decide.
  destruct (skipped n s); [left; reflexivity|].
  unfold decide.
  destruct (3 <? _)%nat; [|left; destruct s; reflexivity].
  set (wv := weighted_vol _).
  destruct (before_trigger_flags wv (pushed n s)) as (_ & _ & Ho).
  replace (train_outbox (pushed n s)) with (train_outbox s) in Ho
    by (destruct s; reflexivity).
  set (s3 := close_period clk wv _) in *.
  destruct (vol_le wv thr_train
            && (train_on_next_chance s3
                || (2 * num_templates_in_last_train s3 <? n)%nat))%bool
    eqn:Hc.
  - right. rewrite <- Ho. apply trigger_taken. exact Hc.
  - left. rewrite trigger_untaken by exact Hc. exact Ho.
Qed.

(** What a tick that publishes leaves behind. *)
Lemma trigger_post n s :
  train_outbox (tick clk n s) <> train_outbox s ->
  train_on_next_chance (tick clk n s) = false
  /\ stable (tick clk n s) = true
  /\ num_templates_in_last_train (tick clk n s) = n
  /\ train_outbox (tick clk n s)
     = train_outbox s ++ [mkTrain "nulog" (normal_periods (tick clk n s))]
  /\ training_start_ts_ns (tick clk n s)
     = clk (pred (clock_reads (tick clk n s))).
Proof.
  intros Hne. destruct (tick_outbox_cases n s) as [E|E];
    [congruence | exact E].
Qed.

(** X4. Two ticks in a row do not both publish unless the count more than
    doubles: after a tick that published for the count [n], a tick for a
    count of at most [2 n] publishes nothing, whatever the volatility. *)
Theorem no_trigger_on_the_next_tick (n n' : nat) (s : CState) :
  train_outbox (tick clk n s) <> train_outbox s ->
  (n' <= 2 * n)%nat ->
  train_outbox (tick clk n' (tick clk n s)) = train_outbox (tick clk n s).
Proof.
  intros Hpub Hn'.
  destruct (trigger_post n s Hpub) as (Ht & _ & Hlast & _).
  apply no_trigger_without_cause; [exact Ht | rewrite Hlast; exact Hn'].
Qed.

(** X5. A tick publishes at most one message; it is for the model ["nulog"],
    it is appended after the messages published before, and it carries the
    history as it stands after the tick. *)
Theorem at_most_one_event_per_tick (n : nat) (s : CState) :
  train_outbox (tick clk n s) = train_outbox s
  \/ train_outbox (tick clk n s)
     = train_outbox s ++ [mkTrain "nulog" (normal_periods (tick clk n s))].
Proof.
  destruct (tick_outbox_cases n s) as [E|(_ & _ & _ & E & _)]; auto.
Qed.

(* ------------------------------------------------------------------ *)
(** ** The window over a whole run                                      *)
(* ------------------------------------------------------------------ *)

Lemma firstn_app_firstn {A : Type} (k : nat) (a l : list A) :
  firstn k (a ++ firstn k l) = firstn k (a ++ l).
Proof.
  rewrite !firstn_app, firstn_firstn.
  replace (Nat.min (k - length a) k) with (k - length a)%nat by lia.
  reflexivity.
Qed.

Lemma run_cons n counts s :
  run clk (n :: counts) s = run clk counts (tick clk n s).
Proof. reflexivity. Qed.

Lemma run_window_nonempty counts s :
  num_total_clusters_tracking_queue s <> [] ->
  (length (num_total_clusters_tracking_queue s) <= 50)%nat ->
  num_total_clusters_tracking_queue (run clk counts s)
  = firstn 50 (rev counts ++ num_total_clusters_tracking_queue s).
Proof.
  revert s. induction counts as [|n counts IH]; intros s Hne Hlen.
  - cbn [rev app]. symmetry. apply firstn_all2. exact Hlen.
  - rewrite run_cons.
    assert (Hw : num_total_clusters_tracking_queue (tick clk n s)
                 = firstn 50 (n :: num_total_clusters_tracking_queue s)).
    { rewrite tick_window. unfold skipped.
      destruct (num_total_clusters_tracking_queue s); [congruence|].
      reflexivity. }
    rewrite IH.
    + rewrite Hw. rewrite firstn_app_firstn. cbn [rev].
      rewrite <- app_assoc. reflexivity.
    + rewrite Hw. discriminate.
    + rewrite Hw. rewrite length_firstn. lia.
Qed.

(** X1. After any run from the start the window holds the 50 most recent
    samples, newest first, where the samples are the counts read, the zero
    counts read before the first non-zero one left out; so it never holds
    more than 50, and the iteration counter is the number of samples. *)
Theorem window_is_the_last_fifty_samples (counts : list nat) :
  let s := run clk counts (initial clk) in
  num_total_clusters_tracking_queue s = firstn 50 (rev (collected counts))
  /\ (length (num_total_clusters_tracking_queue s) <= 50)%nat
  /\ iteration s = length (collected counts).
Proof.
  intros s. subst s.
  assert (Hw : num_total_clusters_tracking_queue (run clk counts (initial clk))
               = firstn 50 (rev (collected counts))).
  { induction counts as [|n counts IH]; [reflexivity|].
    rewrite run_cons. destruct n as [|n].
    - rewrite tick_skipped by reflexivity. exact IH.
    - cbn [collected].
      assert (E : num_total_clusters_tracking_queue
                    (tick clk (S n) (initial clk)) = [S n])
        by (rewrite tick_window; reflexivity).
      rewrite run_window_nonempty; rewrite E;
        [reflexivity | discriminate | cbn; lia]. }
  split; [exact Hw|]. split.
  - rewrite Hw, length_firstn. lia.
  - assert (Hit : forall cs s, num_total_clusters_tracking_queue s <> [] ->
                    iteration (run clk cs s) = (length cs + iteration s)%nat).
    { induction cs as [|n cs IH]; intros s Hne; [reflexivity|].
      rewrite run_cons, IH.
      - rewrite tick_decide. unfold skipped.
        destruct (num_total_clusters_tracking_queue s) eqn:E; [congruence|].
        cbn [length Nat.eqb andb].
        assert (Hd : forall st, iteration (decide clk n st) = iteration st)
          by (intros st; destruct st; decide_cases; reflexivity).
        rewrite Hd. destruct s; cbn. lia.
      - rewrite tick_window. unfold skipped.
        destruct (num_total_clusters_tracking_queue s); [congruence|].
        cbn. discriminate. }
    clear Hw. induction counts as [|n counts IH]; [reflexivity|].
    rewrite run_cons. destruct n as [|n].
    + rewrite tick_skipped by reflexivity. exact IH.
    + cbn [collected]. rewrite Hit.
      * rewrite tick_decide.
        change (skipped (S n) (initial clk)) with false. cbv iota.
        assert (Hd : forall st, iteration (decide clk (S n) st) = iteration st)
          by (intros st; destruct st; decide_cases; reflexivity).
        rewrite Hd. cbn. lia.
      * rewrite tick_window.
        change (skipped (S n) (initial clk)) with false. cbv iota.
        discriminate.
Qed.

(* ------------------------------------------------------------------ *)
(** ** The history is made of clock readings taken in order             *)
(* ------------------------------------------------------------------ *)

Lemma last_end_app lo idx i j : last_end lo (idx ++ [(i, j)]) = j.
Proof.
  revert lo. induction idx as [|ij idx IH]; intros lo; cbn; auto.
Qed.

Lemma idx_sorted_app lo idx i j :
  idx_sorted lo idx ->
  (last_end lo idx <= i)%nat -> (i <= j)%nat ->
  idx_sorted lo (idx ++ [(i, j)]).
Proof.
  revert lo. induction idx as [|ij idx IH]; intros lo Hs Hl Hij; cbn in *.
  - auto.
  - destruct Hs as (H1 & H2 & H3). repeat split; auto.
Qed.

Section ClockNeverMarker.

Hypothesis clock_not_marker : forall k, clk k <> no_start.

Ltac six_parts := split; [|split; [|split; [|split; [|split]]]].

Ltac open_is k :=
  let i := fresh "i" in
  let Hi := fresh "Hi" in
  intros i Hi; injection Hi as <-; lia.

Lemma well_timed_initial : well_timed clk (initial clk).
Proof.
  exists [], (Some 0%nat). cbn. six_parts;
    [reflexivity | exact I | reflexivity | open_is 0%nat | lia | discriminate].
Qed.

Lemma well_timed_pushed n s : well_timed clk s -> well_timed clk (pushed n s).
Proof. destruct s. exact (fun H => H). Qed.

Lemma well_timed_mark_awaiting wv s :
  well_timed clk s -> well_timed clk (mark_awaiting wv s).
Proof.
  unfold mark_awaiting. destruct (vol_ge wv thr_high); [|auto].
  destruct s. exact (fun H => H).
Qed.

Lemma well_timed_restart_period wv s :
  well_timed clk s -> well_timed clk (restart_period clk wv s).
Proof.
  unfold restart_period. destruct (_ && _)%bool; [|auto].
  destruct s. intros (idx & open & Hp & Hs & Ho & Hb & Hl & Hst).
  state_simpl. exists idx, (Some clock_reads0). state_simpl.
  six_parts;
    [exact Hp | exact Hs | reflexivity | open_is clock_reads0 | lia
    | discriminate].
Qed.

Lemma well_timed_close_period wv s :
  well_timed clk s -> well_timed clk (close_period clk wv s).
Proof.
  unfold close_period. destruct (_ && _)%bool eqn:Hc; [|auto].
  apply andb_true_iff in Hc. destruct Hc as [_ Hstable].
  destruct s. intros (idx & open & Hp & Hs & Ho & Hb & Hl & Hst).
  state_simpl. destruct open as [i|]; [|exfalso; apply Hst; auto].
  destruct (Hb i eq_refl) as [Hi1 Hi2].
  exists (idx ++ [(i, clock_reads0)]), None. state_simpl.
  rewrite last_end_app, map_app, Hp, Ho. cbn [map period_at fst snd start_at].
  six_parts;
    [reflexivity | apply idx_sorted_app; auto; lia | reflexivity
    | discriminate | lia | discriminate].
Qed.

Lemma well_timed_trigger n wv s :
  well_timed clk s -> well_timed clk (trigger clk n wv s).
Proof.
  unfold trigger. destruct (_ && _)%bool; [|auto].
  unfold close_open_period.
  destruct s. intros (idx & open & Hp & Hs & Ho & Hb & Hl & Hst).
  state_simpl. destruct open as [i|]; cbn [start_at] in Ho; subst.
  - destruct (Hb i eq_refl) as [Hi1 Hi2].
    destruct (Z.eqb_spec (clk i) no_start) as [E|_];
      [exfalso; exact (clock_not_marker i E)|].
    cbn [negb]. state_simpl.
    exists (idx ++ [(i, clock_reads0)]), (Some (S clock_reads0)).
    state_simpl. rewrite last_end_app, map_app.
    cbn [map period_at fst snd start_at].
    six_parts;
      [reflexivity | apply idx_sorted_app; auto; lia | reflexivity
      | open_is (S clock_reads0) | lia | discriminate].
  - rewrite Z.eqb_refl. cbn [negb]. state_simpl.
    exists idx, (Some clock_reads0). state_simpl.
    six_parts;
      [reflexivity | exact Hs | reflexivity | open_is clock_reads0 | lia
      | discriminate].
Qed.

Lemma well_timed_tick n s : well_timed clk s -> well_timed clk (tick clk n s).
Proof.
  intros Hs. rewrite tick_decide. destruct (skipped n s); [exact Hs|].
  unfold decide. destruct (3 <? _)%nat.
  - apply well_timed_trigger, well_timed_close_period,
      well_timed_restart_period, well_timed_mark_awaiting, well_timed_pushed.
    exact Hs.
  - apply well_timed_pushed. exact Hs.
Qed.

Lemma well_timed_run counts s :
  well_timed clk s -> well_timed clk (run clk counts s).
Proof.
  revert s. induction counts as [|n counts IH]; intros s Hs; [exact Hs|].
  rewrite run_cons. apply IH, well_timed_tick, Hs.
Qed.

Lemma sorted_periods_in_order lo idx :
  (forall i j, (i <= j)%nat -> clk i <= clk j) ->
  idx_sorted lo idx ->
  Forall (fun p => start_ts p <= end_ts p) (map (period_at clk) idx)
  /\ non_overlapping (map (period_at clk) idx)
  /\ Forall (fun p => clk lo <= start_ts p) (map (period_at clk) idx).
Proof.
  intros Hmono. revert lo.
  induction idx as [|[i j] idx IH]; intros lo Hs; cbn in *.
  - repeat split; constructor.
  - destruct Hs as (H1 & H2 & H3).
    destruct (IH j H3) as (IH1 & IH2 & IH3).
    split; [|split; [split|]].
    + constructor; [cbn; apply Hmono; exact H2 | exact IH1].
    + destruct idx as [|[i' j'] idx]; [exact I|].
      cbn in *. inversion IH3; subst. cbn in *. assumption.
    + exact IH2.
    + constructor; [cbn; apply Hmono; exact H1|].
      eapply Forall_impl; [|exact IH3].
      cbn. intros p Hp. eapply Z.le_trans; [|exact Hp].
      apply Hmono. lia.
Qed.

(** X7. With a clock that never goes back and never reads the marker -1,
    every period of the history, after any run from the start, starts no
    later than it ends, the periods are in time order without overlap,
    and none of them has the marker as its start. *)
Theorem history_is_chronological (counts : list nat) :
  (forall i j, (i <= j)%nat -> clk i <= clk j) ->
  let history := normal_periods (run clk counts (initial clk)) in
  Forall (fun p => start_ts p <= end_ts p) history
  /\ non_overlapping history
  /\ Forall (fun p => start_ts p <> no_start) history.
Proof.
  intros Hmono history. subst history.
  destruct (well_timed_run counts _ well_timed_initial)
    as (idx & open & Hp & Hs & _).
  rewrite Hp.
  destruct (sorted_periods_in_order 0 idx Hmono Hs) as (H1 & H2 & _).
  split; [exact H1|]. split; [exact H2|].
  apply Forall_forall. intros p Hin. apply in_map_iff in Hin.
  destruct Hin as ([i j] & <- & _). cbn. apply clock_not_marker.
Qed.

(** X8. After any run from the start, a controller in the stable state has
    a period open: the start timestamp is not the marker -1, so that the
    period closed when the volatility rises has a real start. *)
Theorem stable_state_has_open_period (counts : list nat) :
  let s := run clk counts (initial clk) in
  stable s = true -> period_open s = true.
Proof.
  intros s Hst. subst s.
  destruct (well_timed_run counts _ well_timed_initial)
    as (idx & open & _ & _ & Ho & _ & _ & Hopen).
  unfold period_open. rewrite Ho.
  destruct open as [i|]; [|exfalso; apply (Hopen Hst); reflexivity].
  cbn. apply negb_true_iff, Z.eqb_neq, clock_not_marker.
Qed.

End ClockNeverMarker.

(* ------------------------------------------------------------------ *)
(** ** Constant windows                                                 *)
(* ------------------------------------------------------------------ *)















(* ------------------------------------------------------------------ *)
(** ** The messages published over a run                                *)
(* ------------------------------------------------------------------ *)

Lemma decide_history_grows n s :
  exists added, normal_periods (decide clk n s) = normal_periods s ++ added.
Proof.
  destruct s.
  cbv [decide trigger close_open_period close_period restart_period
       mark_awaiting].
  repeat match goal with
  | |- context [if ?b then _ else _] => destruct b
  end; cbn; rewrite <- ?app_assoc;
  solve [ eexists; reflexivity | exists []; rewrite app_nil_r; reflexivity ].
Qed.

Lemma tick_history_grows n s :
  exists added, normal_periods (tick clk n s) = normal_periods s ++ added.
Proof.
  rewrite tick_decide. destruct (skipped n s).
  - exists []. rewrite app_nil_r. reflexivity.
  - destruct (decide_history_grows n (pushed n s)) as [added E].
    exists added. rewrite E. destruct s; reflexivity.
Qed.

(** X6. After any run from the start, every message in the outbox is for
    the model ["nulog"] and carries the first periods of the current
    history: a later message repeats the periods of the earlier ones and
    adds to them. *)
Theorem published_histories_are_prefixes (counts : list nat) :
  let s := run clk counts (initial clk) in
  Forall (carries_a_prefix s) (train_outbox s).
Proof.
  intros s. subst s.
  assert (Hrun : forall cs s, Forall (carries_a_prefix s) (train_outbox s) ->
            Forall (carries_a_prefix (run clk cs s))
              (train_outbox (run clk cs s))).
  { induction cs as [|n cs IH]; intros s Hs; [exact Hs|].
    rewrite run_cons. apply IH.
    destruct (tick_history_grows n s) as [added Hadd].
    assert (Hold : Forall (carries_a_prefix (tick clk n s)) (train_outbox s)).
    { eapply Forall_impl; [|exact Hs].
      intros m (Hm & rest & Hr). split; [exact Hm|].
      exists (rest ++ added). rewrite Hadd, Hr, app_assoc. reflexivity. }
    destruct (tick_outbox_cases n s) as [E|(_ & _ & _ & E & _)];
      rewrite E; [exact Hold|].
    apply Forall_app. split; [exact Hold|].
    constructor; [|constructor].
    split; [reflexivity|]. exists []. cbn. rewrite app_nil_r. reflexivity. }
  apply Hrun. constructor.
Qed.

(* ------------------------------------------------------------------ *)
(** ** The awaited flag                                                 *)
(* ------------------------------------------------------------------ *)

(** X21. Once a retrain is awaited it stays awaited until a message is
    published: a tick that publishes nothing leaves the flag set,
    whatever the count and the volatility. *)
Theorem awaiting_lasts_until_a_trigger (n : nat) (s : CState) :
  train_on_next_chance s = true ->
  train_outbox (tick clk n s) = train_outbox s ->
  train_on_next_chance (tick clk n s) = true.
Proof.
  intros Ht. rewrite tick_decide.
  destruct (skipped n s); [intros _; exact Ht|].
  unfold decide.
  destruct (3 <? _)%nat; [|intros _; destruct s; exact Ht].
  set (wv := weighted_vol _).
  destruct (before_trigger_flags wv (pushed n s)) as (Hf & _ & Ho).
  replace (train_on_next_chance (pushed n s)) with true in Hf
    by (destruct s; cbn in *; congruence).
  replace (train_outbox (pushed n s)) with (train_outbox s) in Ho
    by (destruct s; reflexivity).
  rewrite orb_true_r in Hf.
  set (s3 := close_period clk wv _) in *.
  destruct (vol_le wv thr_train
            && (train_on_next_chance s3
                || (2 * num_templates_in_last_train s3 <? n)%nat))%bool
    eqn:Hc.
  - destruct (trigger_taken n wv s3 Hc) as (_ & _ & _ & Hout & _).
    intros Hsame. exfalso. rewrite Hout, Ho in Hsame.
    apply (f_equal (@length TrainPayload)) in Hsame.
    rewrite length_app in Hsame. cbn in Hsame. lia.
  - rewrite trigger_untaken by exact Hc. intros _. exact Hf.
Qed.

End ControllerFacts.


(** C2 fails as stated: the fourth tick of 5, 5, 5, 5 publishes a train
    event and the history is not empty afterwards. *)
Lemma C2_counterexample_history_kept :
  let s := run example_clock [5; 5; 5]%nat (initial example_clock) in
  emitted example_clock 5 s = [mkTrain "nulog" [mkPeriod 1000 1010]]
  /\ normal_periods (tick example_clock 5 s) = [mkPeriod 1000 1010]
  /\ normal_periods (tick example_clock 5 s) <> [].
Proof. vm_compute. repeat split; discriminate. Qed.

(** C3 fails as stated: after the trigger at count 20 the count is 41 for
    three ticks, above twice 20, the test [weighted_vol <= 0.15] fails on
    each of them (numpy's values are 0.409, 0.388 and 0.347) and no second
    train event is published. *)
Lemma C3_counterexample_no_trigger_while_volatile :
  let tick := tick64 example_clock Volatility64.weighted_vol in
  let emitted := emitted64 example_clock Volatility64.weighted_vol in
  let s4 := run64 example_clock Volatility64.weighted_vol
              [20; 20; 20; 20]%nat (initial example_clock) in
  let s5 := tick 41%nat s4 in
  let s6 := tick 41%nat s5 in
  let s7 := tick 41%nat s6 in
  length (train_outbox s4) = 1%nat
  /\ num_templates_in_last_train s4 = 20%nat
  /\ map (fun st =>
            Float64.le
              (Volatility64.weighted_vol (num_total_clusters_tracking_queue st))
              thr_train64) [s5; s6; s7]
     = [false; false; false]
  /\ map num_templates_in_last_train [s5; s6; s7] = [20; 20; 20]%nat
  /\ emitted 41%nat s4 = []
  /\ emitted 41%nat s5 = []
  /\ emitted 41%nat s6 = [].
Proof. vm_compute. repeat split. Qed.

(** Witness of C3. The run of the counterexample at the tick where the
    count first reads 41: the test of line 305 fails and nothing is
    published. And the slow climb from 11 to 23: no retrain is awaited,
    the count 23 exceeds twice the 11 of the last retrain, the test holds
    (numpy's value is 0.144) and the tick publishes. *)
Lemma C3_witness_forty_one :
  let wv := Volatility64.weighted_vol in
  let s4 := run64 example_clock wv [20; 20; 20; 20]%nat
              (initial example_clock) in
  let s5 := tick64 example_clock wv 41 s4 in
  let r := run64 example_clock wv slow_climb (initial example_clock) in
  let r' := tick64 example_clock wv 23 r in
  ((3 < length (num_total_clusters_tracking_queue s5))%nat
   /\ (2 * num_templates_in_last_train s4 < 41)%nat
   /\ Float64.le (wv (num_total_clusters_tracking_queue s5)) thr_train64
      = false
   /\ emitted64 example_clock wv 41 s4 = [])
  /\ ((3 < length (num_total_clusters_tracking_queue r'))%nat
      /\ (2 * num_templates_in_last_train r < 23)%nat
      /\ train_on_next_chance r = false
      /\ Float64.le (wv (num_total_clusters_tracking_queue r')) thr_train64
         = true
      /\ emitted64 example_clock wv 23 r
         = [mkTrain "nulog" (normal_periods r')]
      /\ normal_periods r' = [mkPeriod 1000 1010; mkPeriod 1020 1030]).
Proof.
  intros wv s4 s5 r r'.
  assert (Hlen : (3 < length (num_total_clusters_tracking_queue s5))%nat)
    by (vm_compute; lia).
  assert (Hn : (2 * num_templates_in_last_train s4 < 41)%nat)
    by (vm_compute; lia).
  assert (Hv : Float64.le (wv (num_total_clusters_tracking_queue s5))
                 thr_train64 = false) by (vm_compute; reflexivity).
  assert (Hlen' : (3 < length (num_total_clusters_tracking_queue r'))%nat)
    by (vm_compute; lia).
  assert (Hn' : (2 * num_templates_in_last_train r < 23)%nat)
    by (vm_compute; lia).
  assert (Ht' : train_on_next_chance r = false) by (vm_compute; reflexivity).
  assert (Hv' : Float64.le (wv (num_total_clusters_tracking_queue r'))
                  thr_train64 = true) by (vm_compute; reflexivity).
  assert (Hp' : normal_periods r' = [mkPeriod 1000 1010; mkPeriod 1020 1030])
    by (vm_compute; reflexivity).
  split.
  - split; [exact Hlen|]. split; [exact Hn|]. split; [exact Hv|].
    exact (proj1 (C3_escape_hatch_needs_low_volatility
                    example_clock wv 41 s4 Hlen Hn) Hv).
  - split; [exact Hlen'|]. split; [exact Hn'|]. split; [exact Ht'|].
    split; [exact Hv'|]. split; [|exact Hp'].
    exact (proj1 (proj2 (C3_escape_hatch_needs_low_volatility
                           example_clock wv 23 r Hlen' Hn') Hv')).
Defined.

(** C8 fails as stated: the period opened at 1020 by the trigger on the
    fourth tick of 20, 20, 20, 20, 30, 30, 30 is still open on the seventh
    tick, a retrain is awaited, the test [weighted_vol < 0.199] holds
    (numpy's value is 0.197), no trigger fires, and the start timestamp is
    written again. *)
Lemma C8_counterexample_open_period_restarted :
  let wv := Volatility64.weighted_vol in
  let s := run64 example_clock wv [20; 20; 20; 20; 30; 30]%nat
             (initial example_clock) in
  let s' := tick64 example_clock wv 30 s in
  period_open s = true
  /\ training_start_ts_ns s = 1020
  /\ stable s = true
  /\ train_on_next_chance s = true
  /\ Float64.lt (wv (num_total_clusters_tracking_queue s')) thr_high64 = true
  /\ emitted64 example_clock wv 30 s = []
  /\ training_start_ts_ns s' = 1030.
Proof. vm_compute. repeat split. Qed.

(** Witness of C8: the same tick. *)
Lemma C8_witness_restart :
  let wv := Volatility64.weighted_vol in
  let s := run64 example_clock wv [20; 20; 20; 20; 30; 30]%nat
             (initial example_clock) in
  let s' := tick64 example_clock wv 30 s in
  (3 < length (num_total_clusters_tracking_queue s'))%nat
  /\ Float64.lt (wv (num_total_clusters_tracking_queue s')) thr_high64 = true
  /\ train_on_next_chance s = true
  /\ training_start_ts_ns s <> very_first_ts_ns s
  /\ Float64.le (wv (num_total_clusters_tracking_queue s')) thr_train64
     = false
  /\ training_start_ts_ns s' = example_clock (clock_reads s)
  /\ clock_reads s' = S (clock_reads s).
Proof.
  intros wv s s'.
  assert (Hlen : (3 < length (num_total_clusters_tracking_queue s'))%nat)
    by (vm_compute; lia).
  assert (Hlt : Float64.lt (wv (num_total_clusters_tracking_queue s'))
                  thr_high64 = true) by (vm_compute; reflexivity).
  assert (Ht : train_on_next_chance s = true) by (vm_compute; reflexivity).
  assert (Hne : training_start_ts_ns s <> very_first_ts_ns s)
    by (vm_compute; discriminate).
  assert (Hv : Float64.le (wv (num_total_clusters_tracking_queue s'))
                 thr_train64 = false) by (vm_compute; reflexivity).
  split; [exact Hlen|]. split; [exact Hlt|]. split; [exact Ht|].
  split; [exact Hne|]. split; [exact Hv|].
  exact (proj2 (proj2 (proj1 (C8_start_gate_is_first_timestamp
                                example_clock wv 30 s Hlen Hlt Ht) Hne)) Hv).
Defined.

(** The values of [weighted_vol] in the runs above, as float64:
    0.4090700387029614, 0.19730011566174616, 0.2525381361380527,
    0.17459426695964136, for the window of the slow climb
    0.14401110151169505, and 0.0. *)
Lemma scenario_values :
  let wv := Volatility64.weighted_vol in
  wv [41; 20; 20; 20; 20]%nat = S754_finite false 7369150695484365 (-54)
  /\ wv [30; 30; 30; 20; 20; 20; 20]%nat
     = S754_finite false 7108485818995166 (-55)
  /\ wv [8; 5; 5; 5; 5]%nat = S754_finite false 4549322623232695 (-54)
  /\ wv [28; 20; 20; 20; 20]%nat = S754_finite false 6290421404963726 (-55)
  /\ wv (23%nat :: rev slow_climb)
     = S754_finite false 5188546744842276 (-55)
  /\ wv [5; 5; 5; 5]%nat = S754_zero false.
Proof. vm_compute. repeat split. Qed.

(** The two readings of the arithmetic part ways where a rounding error
    carries the value across a threshold. On 22, 23, 27, 32 the weighted
    volatility is 3/20 in exact arithmetic and 0.15000000000000002 for
    numpy: the test of line 305 fails and the fourth tick publishes
    nothing, where the exact reading has a trigger. *)
Lemma rounding_crosses_the_threshold :
  let wv := Volatility64.weighted_vol in
  let s := run64 example_clock wv [22; 23; 27]%nat (initial example_clock) in
  s = run example_clock [22; 23; 27]%nat (initial example_clock)
  /\ wv [32; 27; 23; 22]%nat = S754_finite false 5404319552844596 (-55)
  /\ Float64.le (wv [32; 27; 23; 22]%nat) thr_train64 = false
  /\ emitted64 example_clock wv 32 s = []
  /\ vol_le (weighted_vol [32; 27; 23; 22]%nat) thr_train = true
  /\ length (emitted example_clock 32 s) = 1%nat.
Proof. vm_compute. repeat split. Qed.

(* ------------------------------------------------------------------ *)
(** ** The scoring stage                                               *)
(* ------------------------------------------------------------------ *)

Section ScoringFacts.

Context {T : Type} `{TemplateMiner T} {engine : RegexEngine}.

Local Open Scope string_scope.
Local Open Scope list_scope.

Lemma inferencing_loop_acc (batch : list LogRecord) (miner : T)
    (acc : list InferRow) :
  fold_left (fun a row => infer_row row a) batch (miner, acc)
  = (fst (classify_all miner (filter has_text batch)),
     acc ++ snd (classify_all miner (filter has_text batch))).
Proof.
  revert miner acc. induction batch as [|row batch IH]; intros miner acc.
  - simpl. rewrite app_nil_r. reflexivity.
  - cbn [fold_left filter]. unfold infer_row at 2.
    destruct (has_text row) eqn:Ht.
    + cbn [fst snd classify_all].
      destruct (add_log_message miner (masked_log row)) as [m1 r].
      rewrite IH.
      destruct (classify_all m1 (filter has_text batch)) as [m2 ds].
      cbn [fst snd]. rewrite <- app_assoc. reflexivity.
    + apply IH.
Qed.

(** The loop of the source is the per-record classification of the records
    that have text. *)
Lemma inferencing_loop_classify (batch : list LogRecord) (miner : T) :
  inferencing_loop batch miner = classify_all miner (filter has_text batch).
Proof.
  unfold inferencing_loop. rewrite inferencing_loop_acc.
  destruct (classify_all miner (filter has_text batch)); reflexivity.
Qed.

Lemma classify_all_length (texts : list LogRecord) (miner : T) :
  length (snd (classify_all miner texts)) = length texts.
Proof.
  revert miner. induction texts as [|row texts IH]; intros miner;
    [reflexivity|].
  cbn [classify_all].
  destruct (add_log_message miner (masked_log row)) as [m1 r].
  specialize (IH m1). destruct (classify_all m1 texts) as [m2 ds].
  cbn [snd length] in *. rewrite IH. reflexivity.
Qed.

(** The [i]-th classification row is the miner's answer for the [i]-th
    record, in the state the records before it have left the miner in. *)
Lemma classify_all_nth (texts : list LogRecord) :
  forall (miner : T) (i : nat) (row : LogRecord),
    nth_error texts i = Some row ->
    let result :=
      snd (add_log_message (miner_after miner (firstn i texts))
             (masked_log row)) in
    nth_error (snd (classify_all miner texts)) i
    = Some (mkInfer (log_id row) (change_type result) (cluster_id result)
              (template_mined result) (cluster_id result)
              (cluster_size result)).
Proof.
  induction texts as [|row0 texts IH]; intros miner i row Hi.
  - destruct i; discriminate.
  - cbn [classify_all].
    destruct (add_log_message miner (masked_log row0)) as [m1 r] eqn:E.
    specialize (IH m1).
    destruct (classify_all m1 texts) as [m2 ds]. cbn [snd] in *.
    destruct i as [|i].
    + cbn in Hi. injection Hi as <-.
      cbn [firstn miner_after fold_left nth_error]. rewrite E. reflexivity.
    + cbn [nth_error] in *. cbn [firstn]. unfold miner_after.
      cbn [fold_left]. rewrite E. cbn [fst].
      apply IH. exact Hi.
Qed.

Lemma classify_all_nil_iff (texts : list LogRecord) (miner : T) :
  snd (classify_all miner texts) = [] <-> texts = [].
Proof.
  destruct texts as [|row texts]; simpl.
  - tauto.
  - destruct (add_log_message miner (masked_log row)) as [m1 r].
    destruct (classify_all m1 texts) as [m2 ds]. simpl.
    split; discriminate.
Qed.

(** What one iteration does, by cases on the batch at the head of the
    ingestion queue. *)
Lemma train_and_inference_iteration_cases (w : World T) (kw : string)
    (batch : list LogRecord) (rest : list (list LogRecord)) :
  incoming_logs_to_train_queue w = batch :: rest ->
  let texts := filter has_text batch in
  let miner := fst (classify_all (template_miner w) texts) in
  let df := snd (classify_all (template_miner w) texts) in
  let w1 := set_template_miner miner (set_incoming rest w) in
  train_and_inference_iteration kw w
  = match df with
    | [] => (Raised (KeyError "update_type"), w1)
    | _ :: _ =>
        match re_compile (effective_pattern kw) with
        | None => (Raised ReError, track_counts df w1)
        | Some pattern =>
            (Returned (effective_pattern kw),
             set_nats_published
               (nats_published w
                ++ [("anomalies", PredictionPayload (map (score pattern) df))])
               (track_counts df w1))
        end
    end.
Proof.
  intros Hq texts miner df w1. subst texts miner df w1.
  unfold train_and_inference_iteration, await, incoming_get, tbind,
    get_world, modify_world, raise, tret, nw_publish.
  rewrite Hq. cbn [template_miner set_incoming].
  replace (template_miner (set_incoming rest w)) with (template_miner w)
    by (destruct w; reflexivity).
  rewrite inferencing_loop_classify.
  destruct (classify_all (template_miner w) (filter has_text batch))
    as [m ds].
  cbn [fst snd]. destruct ds as [|d ds]; [reflexivity|].
  destruct (re_compile (effective_pattern kw)) as [pattern|]; [|reflexivity].
  f_equal. f_equal.
  unfold track_counts.
  repeat match goal with
  | |- context [if ?b then _ else _] => destruct b
  end; destruct w; reflexivity.
Qed.

Lemma no_keyword_fold (kws : list string) (acc : string) :
  forallb (fun kw => (kw =? "")%string) kws = true ->
  fold_left add_keyword kws acc = acc.
Proof.
  revert acc. induction kws as [|kw kws IH]; intros acc Hall; simpl in *.
  - reflexivity.
  - apply andb_true_iff in Hall. destruct Hall as [Hkw Hall].
    unfold add_keyword at 2. rewrite Hkw. apply IH. exact Hall.
Qed.

Lemma fallback_pattern_search_from (at_start : bool) (text : string) :
  search_from (RSeq (RSeq REps (RChar "a")) RBol) at_start text = false.
Proof.
  revert at_start. induction text as [|c text IH]; intros at_start.
  - reflexivity.
  - cbn [search_from]. rewrite IH, orb_false_r.
    unfold matches_here. cbn [rmatch flat_map app fst snd].
    destruct (Ascii.eqb "a" c); reflexivity.
Qed.

(** The fallback pattern ["a^"] matches no subject. *)
Lemma fallback_pattern_matches_nothing (text : string) :
  re_search (RSeq (RSeq REps (RChar "a")) RBol) text = false.
Proof. apply fallback_pattern_search_from. Qed.

Lemma mask_iff (pattern : Pattern) (d : InferRow) :
  drain_prediction (score pattern d) = 1
  <-> (drain_matched_template_support d < 10
       \/ pattern_search pattern (matched_template d) = true).
Proof.
  unfold score, anomaly_mask. cbn [drain_prediction].
  destruct (pattern_search pattern (matched_template d)).
  - rewrite orb_true_r. split; auto.
  - rewrite orb_false_r.
    destruct (Z.leb_spec (drain_matched_template_support d) 10);
      destruct (Z.eqb_spec (drain_matched_template_support d) 10);
      cbn [andb negb];
      (split; [intros Hx; try discriminate; left; lia
              | intros [Hx|Hx]; try discriminate; try reflexivity; lia]).
Qed.

Lemma flag_is_a_bit (pattern : Pattern) (d : InferRow) :
  drain_prediction (score pattern d) = 0
  \/ drain_prediction (score pattern d) = 1.
Proof.
  unfold score. cbn [drain_prediction].
  destruct (anomaly_mask pattern d); [right | left]; reflexivity.
Qed.

(** An engine that reads the fragment compiles the fallback pattern ["a^"]
    to a pattern that matches no text. *)
Lemma fallback_pattern_of_engine :
  agrees_on_fragment engine ->
  exists p : Pattern,
    re_compile "a^" = Some p /\ forall text, pattern_search p text = false.
Proof.
  intros Hagree.
  destruct (Hagree "a^" (RSeq (RSeq REps (RChar "a")) RBol) eq_refl)
    as (p & Hp & Hsem).
  exists p. split; [exact Hp|].
  intros text. rewrite Hsem. apply fallback_pattern_matches_nothing.
Qed.

(** C4. Whatever pattern [re] compiles the keywords to: every row the
    scoring stage publishes is [score pattern d] for the compiled pattern
    and the classification [d] of a record; its flag is 1 when the support
    is below 10 or the template matches the pattern, and 0 otherwise. And
    when [FAIL_KEYWORDS] holds no keyword the pattern handed to [re] is
    ["a^"], which (for an engine that reads literals and [^] as [re] does)
    matches no text, so that the flag is 1 exactly when the support is
    below 10. *)
Theorem C4_anomaly_flag :
  (forall (w : World T) kw kw' batch rest,
      incoming_logs_to_train_queue w = batch :: rest ->
      fst (train_and_inference_iteration kw w) = Returned kw' ->
      exists pattern,
        re_compile (effective_pattern kw) = Some pattern
        /\ nats_published (snd (train_and_inference_iteration kw w))
           = nats_published w
             ++ [("anomalies",
                  PredictionPayload
                    (map (score pattern)
                       (snd (classify_all (template_miner w)
                               (filter has_text batch)))))])
  /\ (forall (pattern : Pattern) d,
        (drain_prediction (score pattern d) = 1
         <-> (drain_matched_template_support d < 10
              \/ pattern_search pattern (matched_template d) = true))
        /\ (drain_prediction (score pattern d) = 0
            \/ drain_prediction (score pattern d) = 1))
  /\ (agrees_on_fragment engine ->
      forall env,
        forallb (fun kw => (kw =? "")%string) (split ","%char env) = true ->
        effective_pattern (build_fail_keywords_str env) = "a^"
        /\ exists pattern,
             re_compile (effective_pattern (build_fail_keywords_str env))
             = Some pattern
             /\ (forall text, pattern_search pattern text = false)
             /\ (forall d,
                   drain_prediction (score pattern d) = 1
                   <-> drain_matched_template_support d < 10)).
Proof.
  split; [|split].
  - intros w kw kw' batch rest Hq Hret.
    rewrite (train_and_inference_iteration_cases w kw batch rest Hq) in *.
    destruct (snd (classify_all (template_miner w) (filter has_text batch)))
      as [|d ds]; [discriminate|].
    destruct (re_compile (effective_pattern kw)) as [pattern|];
      [|discriminate].
    exists pattern. split; [reflexivity|].
    cbn [snd]. destruct w; unfold track_counts;
    repeat match goal with
    | |- context [if ?b then _ else _] => destruct b
    end; reflexivity.
  - intros pattern d. split; [apply mask_iff | apply flag_is_a_bit].
  - intros Hagree env Hall. unfold build_fail_keywords_str.
    rewrite (no_keyword_fold _ _ Hall).
    split; [reflexivity|].
    destruct (fallback_pattern_of_engine Hagree) as (p & Hp & Hnone).
    exists p. split; [exact Hp|]. split; [exact Hnone|].
    intros d. rewrite mask_iff, Hnone.
    split; [intros [Hs|Hs]; [exact Hs|discriminate] | auto].
Qed.

(** C5. For the batch at the head of the ingestion queue and keywords that
    [re] compiles: the scored rows are as many as the records that have
    text, and the [i]-th scored row is made from the [i]-th such record:
    it carries the record's id, and the cluster id and support that
    [add_log_message] answers for the record's text in the miner as the
    text records before it have left it, with the flag computed from that
    answer. The rows are published when there is at least one; a batch
    without any text record publishes nothing. *)
Theorem C5_one_scored_row_per_text_record (w : World T) (kw : string)
    (pattern : Pattern) (batch : list LogRecord)
    (rest : list (list LogRecord)) :
  incoming_logs_to_train_queue w = batch :: rest ->
  re_compile (effective_pattern kw) = Some pattern ->
  let texts := filter has_text batch in
  let results := snd (inferencing_loop batch (template_miner w)) in
  let scored := map (score pattern) results in
  let after := train_and_inference_iteration kw w in
  length scored = length texts
  /\ (forall i row,
        nth_error texts i = Some row ->
        let miner := miner_after (template_miner w) (firstn i texts) in
        let result := snd (add_log_message miner (masked_log row)) in
        exists sc,
          nth_error scored i = Some sc
          /\ scored_id sc = log_id row
          /\ scored_template_id sc = cluster_id result
          /\ scored_template_support sc = cluster_size result
          /\ (drain_prediction sc = 1
              <-> (cluster_size result < 10
                   \/ pattern_search pattern (template_mined result) = true))
          /\ (drain_prediction sc = 0 \/ drain_prediction sc = 1))
  /\ (texts <> [] ->
        fst after = Returned (effective_pattern kw)
        /\ nats_published (snd after)
           = nats_published w ++ [("anomalies", PredictionPayload scored)])
  /\ (texts = [] ->
        fst after = Raised (KeyError "update_type")
        /\ nats_published (snd after) = nats_published w).
Proof.
  intros Hq Hc texts results scored after.
  subst texts results scored after.
  rewrite inferencing_loop_classify.
  rewrite (train_and_inference_iteration_cases w kw batch rest Hq), Hc.
  pose proof (classify_all_nil_iff (filter has_text batch) (template_miner w))
    as Hnil.
  pose proof (classify_all_length (filter has_text batch) (template_miner w))
    as Hlen.
  pose proof (classify_all_nth (filter has_text batch) (template_miner w))
    as Hnth.
  set (texts := filter has_text batch) in *.
  set (df := snd (classify_all (template_miner w) texts)) in *.
  split; [rewrite length_map; exact Hlen|]. split.
  - intros i row Hi miner result. subst miner result.
    specialize (Hnth i row Hi). cbv zeta in Hnth.
    rewrite nth_error_map, Hnth. cbn [option_map].
    eexists. split; [reflexivity|].
    split; [reflexivity|]. split; [reflexivity|]. split; [reflexivity|].
    split; [apply mask_iff | apply flag_is_a_bit].
  - split.
    + intros Hne. destruct df as [|d ds] eqn:E.
      * exfalso. apply Hne. apply Hnil. reflexivity.
      * cbn [fst snd]. split; [reflexivity|].
        destruct w; unfold track_counts;
        repeat match goal with
        | |- context [if ?b then _ else _] => destruct b
        end; reflexivity.
    + intros He. apply Hnil in He. rewrite He. cbn [fst snd].
      split; [reflexivity|]. destruct w; reflexivity.
Qed.

(** C10. A batch in which no record has text, the empty batch included,
    makes the iteration raise [KeyError] on the column ["update_type"];
    nothing is published, the miner and the tracking windows are
    untouched, and the batch has left the queue. *)
Theorem C10_empty_result_raises_key_error (w : World T) (kw : string)
    (batch : list LogRecord) (rest : list (list LogRecord)) :
  incoming_logs_to_train_queue w = batch :: rest ->
  forallb (fun row => (masked_log row =? "")%string) batch = true ->
  train_and_inference_iteration kw w
  = (Raised (KeyError "update_type"), set_incoming rest w)
  /\ nats_published (set_incoming rest w) = nats_published w.
Proof.
  intros Hq Hall.
  assert (Hf : filter has_text batch = []).
  { clear Hq. induction batch as [|row batch IH]; [reflexivity|].
    cbn [forallb] in Hall. apply andb_true_iff in Hall.
    destruct Hall as [Hrow Hall].
    cbn [filter]. unfold has_text at 1. rewrite Hrow. cbn [negb].
    apply IH. exact Hall. }
  rewrite (train_and_inference_iteration_cases w kw batch rest Hq), Hf.
  cbn [classify_all fst snd]. destruct w; split; reflexivity.
Qed.

(** C6, as the code has it. The scoring stage never touches the
    persistence queue; when an iteration returns it has published the
    scored rows on subject ["anomalies"], and it is the ingestion handler
    subscribed to that subject that, on delivery, puts them on the
    persistence queue, as a frame without target-index columns, by a [put]
    that never waits. *)
Theorem C6_scored_batch_travels_by_the_bus (w : World T) (kw : string) :
  let after := train_and_inference_iteration kw w in
  logs_to_update_in_elasticsearch (snd after)
  = logs_to_update_in_elasticsearch w
  /\ (forall kw', fst after = Returned kw' ->
        exists scored,
          nats_published (snd after)
          = nats_published w ++ [("anomalies", PredictionPayload scored)]
          /\ forall w1 : World T,
               deliver ("anomalies", PredictionPayload scored) w1
               = (Returned tt,
                  set_to_update
                    (logs_to_update_in_elasticsearch w1
                     ++ [mkFrame scored None None None]) w1)).
Proof.
  intros after. subst after.
  destruct (incoming_logs_to_train_queue w) as [|batch rest] eqn:Hq.
  - unfold train_and_inference_iteration, await, tbind, incoming_get.
    rewrite Hq. cbn [fst snd]. split; [reflexivity|]. discriminate.
  - rewrite (train_and_inference_iteration_cases w kw batch rest Hq).
    destruct (snd (classify_all (template_miner w) (filter has_text batch)))
      as [|d ds].
    + cbn [fst snd]. split; [destruct w; reflexivity | discriminate].
    + destruct (re_compile (effective_pattern kw)) as [pattern|].
      * cbn [fst snd]. split.
        -- destruct w; unfold track_counts;
           repeat match goal with
           | |- context [if ?b then _ else _] => destruct b
           end; reflexivity.
        -- intros kw' _. eexists. split.
           ++ destruct w; unfold track_counts;
              repeat match goal with
              | |- context [if ?b then _ else _] => destruct b
              end; reflexivity.
           ++ intros w1. reflexivity.
      * cbn [fst snd]. split; [|discriminate].
        destruct w; unfold track_counts;
        repeat match goal with
        | |- context [if ?b then _ else _] => destruct b
        end; reflexivity.
Qed.

End ScoringFacts.

Lemma fragment_engine_agrees : agrees_on_fragment FragmentEngine.
Proof.
  intros pat r Hr. exists r. split; [exact Hr|]. reflexivity.
Qed.

(** Witness of C4. The keywords [failed] and [error] with two records
    whose clusters hold 12 and 30 messages already: the first is flagged by
    its keyword, the second is not flagged. And no keyword at all, only
    separators. *)
Lemma C4_witness_keywords :
  let batch := [mkLog "id1" "connection failed"; mkLog "id2" "user logged in"] in
  let miner :=
    [("connection failed"%string, 12); ("user logged in"%string, 30)] in
  let w := mkWorld miner [] [] [] [batch] [] [] 1 [] [] in
  let kw := build_fail_keywords_str "failed,error"%string in
  let after := train_and_inference_iteration kw w in
  (incoming_logs_to_train_queue w = [batch]
   /\ fst after = Returned kw
   /\ nats_published (snd after)
      = [("anomalies"%string,
          PredictionPayload [mkScored "id1" 1 1 13; mkScored "id2" 0 2 31])]
   /\ exists pattern,
        re_compile (effective_pattern kw) = Some pattern
        /\ nats_published (snd after)
           = nats_published w
             ++ [("anomalies"%string,
                  PredictionPayload
                    (map (score pattern)
                       (snd (classify_all (template_miner w)
                               (filter has_text batch)))))])
  /\ (agrees_on_fragment FragmentEngine
      /\ forallb (fun kw => (kw =? "")%string) (split ","%char ",,"%string)
         = true
      /\ exists pattern,
           re_compile (effective_pattern (build_fail_keywords_str ",,"%string))
           = Some pattern
           /\ (forall text, pattern_search pattern text = false)
           /\ (forall d,
                 drain_prediction (score pattern d) = 1
                 <-> drain_matched_template_support d < 10)).
Proof.
  intros batch miner w kw after.
  assert (Hq : incoming_logs_to_train_queue w = [batch]) by reflexivity.
  assert (Hret : fst after = Returned kw) by (vm_compute; reflexivity).
  assert (Hpub : nats_published (snd after)
                 = [("anomalies"%string,
                     PredictionPayload
                       [mkScored "id1" 1 1 13; mkScored "id2" 0 2 31])])
    by (vm_compute; reflexivity).
  assert (Hall : forallb (fun kw => (kw =? "")%string)
                   (split ","%char ",,"%string) = true) by reflexivity.
  split.
  - split; [exact Hq|]. split; [exact Hret|]. split; [exact Hpub|].
    exact (proj1 (@C4_anomaly_flag _ ExampleMiner FragmentEngine)
             w kw kw batch [] Hq Hret).
  - split; [exact fragment_engine_agrees|]. split; [exact Hall|].
    exact (proj2 (proj2 (proj2 (@C4_anomaly_flag _ ExampleMiner FragmentEngine))
                    fragment_engine_agrees ",,"%string Hall)).
Defined.

(** Witness of C5: three records, the second without text; the third
    joins the cluster the first has opened, and its support is 2. *)
Lemma C5_witness_three_records :
  let batch := [mkLog "id1" "connection failed"; mkLog "id2" "";
                mkLog "id3" "connection failed"] in
  let w := example_world batch in
  let after := train_and_inference_iteration "" w in
  let scored :=
    map (score (RSeq (RSeq REps (RChar "a")) RBol))
      (snd (inferencing_loop batch (template_miner w))) in
  incoming_logs_to_train_queue w = [batch]
  /\ re_compile (effective_pattern "")
     = Some (RSeq (RSeq REps (RChar "a")) RBol)
  /\ filter has_text batch <> []
  /\ length scored = 2%nat
  /\ (exists sc,
        nth_error scored 1 = Some sc
        /\ scored_id sc = "id3"%string
        /\ scored_template_id sc = 1
        /\ scored_template_support sc = 2)
  /\ fst after = Returned "a^"%string
  /\ nats_published (snd after)
     = [("anomalies"%string,
         PredictionPayload
           [mkScored "id1" 1 1 1; mkScored "id3" 1 1 2])].
Proof.
  intros batch w after scored.
  assert (Hq : incoming_logs_to_train_queue w = [batch]) by reflexivity.
  assert (Hc : re_compile (effective_pattern "")
               = Some (RSeq (RSeq REps (RChar "a")) RBol)) by reflexivity.
  assert (Hne : filter has_text batch <> []) by (vm_compute; discriminate).
  pose proof (C5_one_scored_row_per_text_record w "" _ batch [] Hq Hc)
    as (Hlen & Hnth & Hpub & _).
  split; [exact Hq|]. split; [exact Hc|]. split; [exact Hne|].
  split; [exact Hlen|]. split.
  - destruct (Hnth 1%nat (mkLog "id3" "connection failed") eq_refl)
      as (sc & Hsc & Hid & Htid & Hsup & _).
    exists sc. split; [exact Hsc|]. split; [exact Hid|].
    split; [exact Htid | exact Hsup].
  - exact (Hpub Hne).
Defined.

(** Witness of C10: a batch of one record without text. *)
Lemma C10_witness_blank_record :
  let batch := [mkLog "id2" ""] in
  let w := example_world batch in
  incoming_logs_to_train_queue w = [batch]
  /\ forallb (fun row => (masked_log row =? "")%string) batch = true
  /\ train_and_inference_iteration "" w
     = (Raised (KeyError "update_type"), set_incoming [] w).
Proof.
  intros batch w.
  split; [reflexivity|]. split; [reflexivity|].
  exact (proj1 (C10_empty_result_raises_key_error w "" batch [] eq_refl
                  eq_refl)).
Defined.

(** C6 fails as stated: the iteration scores a batch and publishes it, and
    the persistence queue is still empty afterwards. *)
Lemma C6_counterexample_nothing_enqueued :
  let w := example_world [mkLog "id1" "connection failed"] in
  let after := train_and_inference_iteration "" w in
  fst after = Returned "a^"%string
  /\ nats_published (snd after)
     = [("anomalies"%string, PredictionPayload [mkScored "id1" 1 1 1])]
  /\ logs_to_update_in_elasticsearch (snd after) = [].
Proof. vm_compute. repeat split. Qed.

(* ------------------------------------------------------------------ *)
(** ** The persistence stage                                            *)
(* ------------------------------------------------------------------ *)

Section PersistenceFacts.

Context {T : Type}.

Local Open Scope string_scope.
Local Open Scope list_scope.

Ltac run_iteration :=
  cbv [update_es_logs_iteration await tbind to_update_get try_except
       async_streaming_bulk tret discard on_transport_error
       setup_es_connection];
  repeat match goal with
  | H : logs_to_update_in_elasticsearch _ = _ |- _ => rewrite H
  | H : es_outcomes _ = _ |- _ => rewrite H
  end.

(** No path of an iteration puts anything back on the persistence queue:
    the frame popped is gone whatever the bulk calls answer. *)
Lemma iteration_never_requeues (es : nat) (w : World T) (df : Frame)
    (rest : list Frame) :
  logs_to_update_in_elasticsearch w = df :: rest ->
  logs_to_update_in_elasticsearch (snd (update_es_logs_iteration es w))
  = rest.
Proof.
  intros Hq. destruct w. cbn in Hq. subst.
  cbv [update_es_logs_iteration await tbind to_update_get try_except
       async_streaming_bulk tret discard on_transport_error
       setup_es_connection].
  cbn.
  repeat match goal with
  | |- context [match ?x with _ => _ end] =>
      match type of x with
      | list BulkOutcome => destruct x
      | BulkOutcome => destruct x
      | exn => destruct x
      | StatusCode => destruct x
      | bool => destruct x
      end; cbn
  end; reflexivity.
Qed.

Ltac bulk_cases :=
  repeat match goal with
  | |- context [match ?x with _ => _ end] =>
      match type of x with
      | list BulkOutcome => destruct x
      | BulkOutcome => destruct x
      | exn => destruct x
      | StatusCode => destruct x
      end; cbn
  end.

(** C9. When a bulk call raises a transport error whose status code is
    ["N/A"], a new client is set up; the scripted update that failed is
    followed by the field update through the new client, the field update
    that failed ends the iteration with the new client in hand; each
    operation was attempted once and the frame is not put back on the
    queue. *)
Theorem C9_transport_error_reconnects_and_drops (es : nat) (w : World T)
    (df : Frame) (rest : list Frame) (outs : list BulkOutcome) :
  logs_to_update_in_elasticsearch w = df :: rest ->
  let fresh := S (es_connections w) in
  let after := update_es_logs_iteration es w in
  let scripted :=
    mkBulkCall es
      (doc_generator_anomaly (with_script (select_anomalies (tagged df)))) in
  (filter anomalous (rows df) <> [] ->
   es_outcomes w = BulkRaises (TransportError StatusNA) :: outs ->
   es_bulk_calls (snd after)
   = es_bulk_calls w
     ++ [scripted; mkBulkCall fresh (doc_generator (tagged df))]
   /\ (fresh <= es_connections (snd after))%nat
   /\ logs_to_update_in_elasticsearch (snd after) = rest)
  /\ (filter anomalous (rows df) = [] ->
      es_outcomes w = BulkRaises (TransportError StatusNA) :: outs ->
      after
      = (Returned fresh,
         set_es_outcomes outs
           (set_es_connections fresh
              (set_es_bulk_calls
                 (es_bulk_calls w
                  ++ [mkBulkCall es (doc_generator (tagged df))])
                 (set_to_update rest w)))))
  /\ (filter anomalous (rows df) <> [] ->
      es_outcomes w = BulkOk :: BulkRaises (TransportError StatusNA) :: outs ->
      after
      = (Returned fresh,
         set_es_outcomes outs
           (set_es_connections fresh
              (set_es_bulk_calls
                 (es_bulk_calls w
                  ++ [scripted; mkBulkCall es (doc_generator (tagged df))])
                 (set_to_update rest w))))).
Proof.
  intros Hq fresh after scripted. subst fresh after scripted.
  destruct w. cbn in Hq. subst.
  cbv [update_es_logs_iteration await tbind to_update_get try_except
       async_streaming_bulk tret discard on_transport_error
       setup_es_connection].
  cbn.
  split; [|split].
  - intros Hne ->.
    destruct (filter anomalous (rows df)) as [|r rs] eqn:E;
      [congruence|].
    cbn. bulk_cases; rewrite <- ?app_assoc; cbn;
      repeat split; try reflexivity; lia.
  - intros -> ->. cbn. reflexivity.
  - intros Hne ->.
    destruct (filter anomalous (rows df)) as [|r rs] eqn:E;
      [congruence|].
    cbn. rewrite <- ?app_assoc. reflexivity.
Qed.

End PersistenceFacts.

(** C1 (the code misses it). A bulk-indexing error on the field update, or
    a client timeout on the scripted update, is caught by the clause that
    calls [queue.put] on the failed frame, but the coroutine that call
    returns is never awaited: the persistence queue is empty afterwards,
    the failed frame does not reappear on it. *)
Theorem C1_failed_batch_is_not_requeued :
  let plain := mkFrame [mkScored "id1" 0 1 12] None None None in
  let after_plain :=
    update_es_logs_iteration 1
      (example_persisting plain [BulkRaises BulkIndexError]) in
  let flagged := mkFrame [mkScored "id2" 1 3 2] None None None in
  let after_flagged :=
    update_es_logs_iteration 1
      (example_persisting flagged [BulkRaises ConnectionTimeout; BulkOk]) in
  fst after_plain = Returned 1%nat
  /\ length (es_bulk_calls (snd after_plain)) = 1%nat
  /\ logs_to_update_in_elasticsearch (snd after_plain) = []
  /\ fst after_flagged = Returned 1%nat
  /\ length (es_bulk_calls (snd after_flagged)) = 2%nat
  /\ logs_to_update_in_elasticsearch (snd after_flagged) = [].
Proof. vm_compute. repeat split. Qed.

(** Witness of C9: the field update of a frame without anomalous row. *)
Lemma C9_witness_field_update :
  let df := mkFrame [mkScored "id1" 0 1 12] None None None in
  let w := example_persisting df [BulkRaises (TransportError StatusNA)] in
  logs_to_update_in_elasticsearch w = [df]
  /\ filter anomalous (rows df) = []
  /\ es_outcomes w = [BulkRaises (TransportError StatusNA)]
  /\ fst (update_es_logs_iteration 1 w) = Returned 2%nat
  /\ logs_to_update_in_elasticsearch (snd (update_es_logs_iteration 1 w))
     = [].
Proof.
  intros df w.
  split; [reflexivity|]. split; [reflexivity|]. split; [reflexivity|].
  pose proof (proj1 (proj2
    (C9_transport_error_reconnects_and_drops 1 w df [] [] eq_refl))
    eq_refl eq_refl) as E.
  rewrite E. split; reflexivity.
Defined.

(* ------------------------------------------------------------------ *)
(** ** Keywords: from [FAIL_KEYWORDS] to what a pattern matches         *)
(* ------------------------------------------------------------------ *)

Section KeywordFacts.

Local Open Scope string_scope.

Lemma append_assoc (a b c : string) : (a ++ b) ++ c = a ++ (b ++ c).
Proof. induction a as [|x a IH]; cbn; [reflexivity | rewrite IH; reflexivity]. Qed.

Lemma append_nil_r (a : string) : a ++ "" = a.
Proof. induction a as [|x a IH]; cbn; [reflexivity | rewrite IH; reflexivity]. Qed.

Lemma split_not_nil (sep : ascii) (s : string) : split sep s <> [].
Proof.
  destruct s as [|c s]; cbn; [discriminate|].
  destruct (Ascii.eqb c sep); [discriminate|].
  destruct (split sep s); discriminate.
Qed.

(** X11. Joining the pieces of [split(",")] with commas gives the string
    back, and no piece holds a comma. *)
Theorem split_join_round_trip (env : string) :
  String.concat "," (split ","%char env) = env
  /\ Forall (fun piece => forall pre post, piece <> pre ++ "," ++ post)
       (split ","%char env).
Proof.
  split.
  - induction env as [|c env IH]; [reflexivity|].
    cbn [split]. destruct (Ascii.eqb_spec c ","%char) as [->|Hc].
    + pose proof (split_not_nil ","%char env) as Hne.
      destruct (split ","%char env) as [|w ws] eqn:E; [congruence|].
      cbn [String.concat]. cbn [String.concat] in IH.
      change ("" ++ "," ++ ?x) with (String ","%char x).
      cbn. f_equal. exact IH.
    + pose proof (split_not_nil ","%char env) as Hne.
      destruct (split ","%char env) as [|w ws] eqn:E; [congruence|].
      cbn [String.concat] in *.
      destruct ws as [|w' ws'].
      * cbn. f_equal. exact IH.
      * cbn. f_equal. exact IH.
  - induction env as [|c env IH].
    + constructor; [|constructor].
      intros [|x pre] post E; cbn in E; discriminate.
    + cbn [split]. destruct (Ascii.eqb_spec c ","%char) as [->|Hc].
      * constructor; [|exact IH].
        intros [|x pre] post E; cbn in E; discriminate.
      * destruct (split ","%char env) as [|w ws] eqn:E.
        -- constructor; [|constructor].
           intros [|x [|y pre]] post E'; cbn in E'; try discriminate.
           injection E' as E1 E2. congruence.
        -- inversion IH as [|? ? Hw Hws]; subst.
           constructor; [|exact Hws].
           intros [|x pre] post E'; cbn in E'.
           ++ injection E' as E1 _. congruence.
           ++ injection E' as _ E2. exact (Hw pre post E2).
Qed.

Lemma special_false (c : ascii) :
  special c = false ->
  Ascii.eqb c "(" = false /\ Ascii.eqb c ")" = false
  /\ Ascii.eqb c "|" = false /\ Ascii.eqb c "^" = false
  /\ unsupported c = false.
Proof.
  unfold special. cbn [existsb]. intros H.
  apply orb_false_iff in H. destruct H as [H Hu].
  repeat (apply orb_false_iff in H; destruct H as [? H]).
  repeat split; assumption.
Qed.

Lemma parse_plain_word (kw rest : string) (cur : frame) (stack : list frame) :
  plain_word kw = true ->
  parse (kw ++ rest)%string cur stack
  = parse rest (fst cur, literal_from (snd cur) kw) stack.
Proof.
  revert cur. induction kw as [|c kw IH]; intros cur Hp.
  - destruct cur; reflexivity.
  - cbn [plain_word] in Hp. apply andb_true_iff in Hp.
    destruct Hp as [Hc Hp]. apply negb_true_iff in Hc.
    destruct (special_false c Hc) as (H1 & H2 & H3 & H4 & H5).
    cbn [append parse]. rewrite H1, H2, H3, H4, H5.
    rewrite IH by exact Hp. reflexivity.
Qed.

Lemma flat_map_flat_map {A B C : Type} (f : A -> list B) (g : B -> list C)
    (l : list A) :
  flat_map g (flat_map f l) = flat_map (fun a => flat_map g (f a)) l.
Proof.
  induction l as [|a l IH]; cbn; [reflexivity|].
  rewrite flat_map_app, IH. reflexivity.
Qed.

Lemma rmatch_literal_from (kw : string) (acc : regex) (b : bool) (s : string) :
  rmatch (literal_from acc kw) b s = flat_map (lit_match kw) (rmatch acc b s).
Proof.
  revert acc. induction kw as [|c kw IH]; intros acc.
  - cbn. induction (rmatch acc b s) as [|p l IHl]; cbn; [reflexivity|].
    rewrite <- IHl. reflexivity.
  - cbn [literal_from]. rewrite IH. cbn [rmatch].
    rewrite flat_map_flat_map. apply flat_map_ext. intros [b' s'].
    cbn [fst snd lit_match rmatch].
    destruct s' as [|c' s'']; [reflexivity|].
    destruct (Ascii.eqb c c'); cbn; [rewrite app_nil_r|]; reflexivity.
Qed.

Lemma lit_match_prefix (kw : string) (b : bool) (s : string) :
  lit_match kw (b, s) <> [] <-> exists post, s = (kw ++ post)%string.
Proof.
  revert b s. induction kw as [|c kw IH]; intros b s.
  - cbn. split; [intros _; exists s; reflexivity | discriminate].
  - cbn [lit_match snd]. destruct s as [|c' s'].
    + split; [congruence | intros [post E]; discriminate].
    + destruct (Ascii.eqb_spec c c') as [->|Hc].
      * rewrite IH. split; intros [post E]; exists post.
        -- cbn. rewrite E. reflexivity.
        -- cbn in E. injection E as E. exact E.
      * split; [congruence|]. intros [post E]. cbn in E.
        injection E as E1 _. congruence.
Qed.

Lemma search_from_alt (a b : regex) (at_start : bool) (text : string) :
  search_from (RAlt a b) at_start text
  = search_from a at_start text || search_from b at_start text.
Proof.
  revert at_start. induction text as [|c text IH]; intros at_start.
  - cbn. unfold matches_here. cbn [rmatch].
    destruct (rmatch a at_start ""), (rmatch b at_start ""); reflexivity.
  - cbn [search_from]. rewrite IH. unfold matches_here. cbn [rmatch].
    destruct (rmatch a at_start (String c text)),
             (rmatch b at_start (String c text));
      cbn; try reflexivity;
      destruct (search_from a false text), (search_from b false text);
      reflexivity.
Qed.

Lemma matches_here_word (kw : string) (at_start : bool) (s : string) :
  matches_here (RSeq REps (literal_from REps kw)) at_start s = true
  <-> exists post, s = (kw ++ post)%string.
Proof.
  unfold matches_here. cbn [rmatch flat_map fst snd].
  rewrite app_nil_r, rmatch_literal_from. cbn [rmatch flat_map].
  rewrite app_nil_r. rewrite <- lit_match_prefix with (b := at_start).
  destruct (lit_match kw (at_start, s)); split; congruence.
Qed.

Lemma search_from_word (kw : string) (at_start : bool) (text : string) :
  search_from (RSeq REps (literal_from REps kw)) at_start text = true
  <-> occurs_in kw text.
Proof.
  revert at_start. induction text as [|c text IH]; intros at_start.
  - cbn [search_from]. rewrite orb_false_r, matches_here_word.
    split.
    + intros [post E]. exists "", post. exact E.
    + intros ([|x pre] & post & E); [exists post; exact E | discriminate].
  - cbn [search_from]. rewrite orb_true_iff, matches_here_word, IH.
    split.
    + intros [[post E] | (pre & post & E)].
      * exists "", post. exact E.
      * exists (String c pre), post. cbn. rewrite E. reflexivity.
    + intros ([|x pre] & post & E).
      * left. exists post. exact E.
      * right. cbn in E. injection E as _ E. exists pre, post. exact E.
Qed.

Lemma parse_group (kw rest : string) (alts : option regex) :
  plain_word kw = true ->
  parse (paren kw ++ rest)%string (alts, REps) []
  = parse rest (alts, RSeq REps (literal_from REps kw)) [].
Proof.
  intros Hp. unfold paren. cbn [append]. cbn [parse Ascii.eqb].
  change (Ascii.eqb "(" "(") with true. cbv iota.
  rewrite append_assoc, parse_plain_word by exact Hp.
  reflexivity.
Qed.

Lemma parse_alternation (kws : list string) : forall alts,
  kws <> [] ->
  forallb plain_word kws = true ->
  exists r,
    parse (String.concat "|" (map paren kws)) (alts, REps) [] = Some r
    /\ forall at_start text,
         search_from r at_start text = true
         <-> ((exists a, alts = Some a /\ search_from a at_start text = true)
              \/ exists kw, In kw kws /\ occurs_in kw text).
Proof.
  induction kws as [|k ks IH]; intros alts Hne Hall; [congruence|].
  cbn [forallb] in Hall. apply andb_true_iff in Hall. destruct Hall as [Hk Hks].
  destruct ks as [|k' ks'].
  - change (String.concat "|" (map paren [k])) with (paren k).
    rewrite <- (append_nil_r (paren k)).
    rewrite parse_group by exact Hk. cbn [parse].
    eexists. split; [reflexivity|]. intros at_start text.
    unfold close_frame. cbn [fst snd].
    destruct alts as [a|].
    + rewrite search_from_alt, orb_true_iff, search_from_word.
      split.
      * intros [Ha|Ho]; [left; exists a; auto | right; exists k; cbn; auto].
      * intros [(a' & Ea & Ha)|(kw & [<-|[]] & Ho)];
          [injection Ea as <-; auto | auto].
    + rewrite search_from_word. split.
      * intros Ho. right. exists k. cbn. auto.
      * intros [(a' & Ea & _)|(kw & [<-|[]] & Ho)]; [discriminate | auto].
  - change (String.concat "|" (map paren (k :: k' :: ks')))
      with (paren k ++ "|" ++ String.concat "|" (map paren (k' :: ks')))%string.
    rewrite parse_group by exact Hk.
    cbn [append parse]. change (Ascii.eqb "|" "(") with false.
    change (Ascii.eqb "|" ")") with false. change (Ascii.eqb "|" "|") with true.
    cbv iota.
    destruct (IH (Some (close_frame (alts, RSeq REps (literal_from REps k))))
                ltac:(discriminate) Hks) as (r & Hr & Hsem).
    exists r. split; [exact Hr|]. intros at_start text.
    rewrite Hsem. unfold close_frame. cbn [fst snd].
    split.
    + intros [(a & Ea & Ha)|(kw & Hin & Ho)].
      * injection Ea as <-. destruct alts as [a0|].
        -- rewrite search_from_alt, orb_true_iff, search_from_word in Ha.
           destruct Ha as [Ha|Ho]; [left; exists a0; auto|].
           right. exists k. cbn. auto.
        -- rewrite search_from_word in Ha. right. exists k. cbn. auto.
      * right. exists kw. split; [right; exact Hin | exact Ho].
    + intros [(a & Ea & Ha)|(kw & [<-|Hin] & Ho)].
      * subst alts. left. eexists. split; [reflexivity|].
        rewrite search_from_alt, orb_true_iff. left. exact Ha.
      * left. eexists. split; [reflexivity|].
        destruct alts as [a0|].
        -- rewrite search_from_alt, orb_true_iff, search_from_word. auto.
        -- rewrite search_from_word. exact Ho.
      * right. exists kw. auto.
Qed.

Lemma add_keyword_empty (acc : string) : add_keyword acc "" = acc.
Proof. reflexivity. Qed.

Lemma fold_add_keyword_filter (pieces : list string) (acc : string) :
  fold_left add_keyword pieces acc
  = fold_left add_keyword
      (filter (fun kw => negb (kw =? "")%string) pieces) acc.
Proof.
  revert acc. induction pieces as [|p pieces IH]; intros acc; [reflexivity|].
  cbn [fold_left filter]. destruct (String.eqb_spec p "") as [->|Hp].
  - cbn [negb]. rewrite add_keyword_empty. apply IH.
  - cbn [negb fold_left]. apply IH.
Qed.

Lemma length_append_pos (pre kw : string) :
  (0 <? String.length (pre ++ paren kw))%nat = true.
Proof. destruct pre; reflexivity. Qed.

Lemma fold_add_keyword_concat (ks : list string) : forall pre k0,
  forallb (fun kw => negb (kw =? "")%string) ks = true ->
  fold_left add_keyword ks (pre ++ paren k0)%string
  = (pre ++ String.concat "|" (map paren (k0 :: ks)))%string.
Proof.
  induction ks as [|k ks IH]; intros pre k0 Hall; [reflexivity|].
  cbn [forallb] in Hall. apply andb_true_iff in Hall. destruct Hall as [Hk Hks].
  cbn [fold_left]. unfold add_keyword at 2.
  apply negb_true_iff in Hk. rewrite Hk.
  rewrite length_append_pos.
  change ("|(" ++ k ++ ")")%string with ("|" ++ paren k)%string.
  rewrite <- !append_assoc.
  rewrite (append_assoc pre). rewrite IH by exact Hks.
  change (String.concat "|" (map paren (k0 :: k :: ks)))
    with (paren k0 ++ "|" ++ String.concat "|" (map paren (k :: ks)))%string.
  rewrite !append_assoc. reflexivity.
Qed.

Lemma keywords_of_nonempty (env : string) :
  forallb (fun kw => negb (kw =? "")%string) (keywords_of env) = true.
Proof.
  unfold keywords_of. apply forallb_forall. intros kw Hin.
  apply filter_In in Hin. tauto.
Qed.

Lemma build_is_alternation (env : string) :
  build_fail_keywords_str env
  = String.concat "|" (map paren (keywords_of env)).
Proof.
  unfold build_fail_keywords_str. rewrite fold_add_keyword_filter.
  fold (keywords_of env).
  pose proof (keywords_of_nonempty env) as Hne.
  destruct (keywords_of env) as [|k ks]; [reflexivity|].
  cbn [forallb] in Hne. apply andb_true_iff in Hne. destruct Hne as [Hk Hks].
  cbn [fold_left]. unfold add_keyword at 2.
  apply negb_true_iff in Hk. rewrite Hk. cbn [String.length Nat.ltb Nat.leb].
  change ("" ++ "(" ++ k ++ ")")%string with ("" ++ paren k)%string.
  rewrite fold_add_keyword_concat by exact Hks. reflexivity.
Qed.

(** X12. The pattern built from [FAIL_KEYWORDS]: the non-empty pieces
    between commas, each in parentheses, joined by [|]. *)
Theorem fail_keywords_str_closed_form (env : string) :
  build_fail_keywords_str env
  = String.concat "|" (map paren (keywords_of env)).
Proof. exact (build_is_alternation env). Qed.

(** X13. When the keywords of [FAIL_KEYWORDS] are plain words, the pattern
    compiles and matches a text exactly when one of the keywords occurs in
    it; a record is then flagged exactly when its support is below 10 or
    its template contains one of the keywords. *)
Theorem plain_keywords_are_substring_tests (env : string) :
  forallb plain_word (keywords_of env) = true ->
  exists pattern,
    compile (effective_pattern (build_fail_keywords_str env)) = Some pattern
    /\ (forall text,
          re_search pattern text = true
          <-> exists kw, In kw (keywords_of env) /\ occurs_in kw text)
    /\ (forall d,
          drain_prediction (score pattern d) = 1
          <-> (drain_matched_template_support d < 10
               \/ exists kw,
                    In kw (keywords_of env)
                    /\ occurs_in kw (matched_template d))).
Proof.
  intros Hplain.
  enough (Hx : exists pattern,
    compile (effective_pattern (build_fail_keywords_str env)) = Some pattern
    /\ (forall text,
          re_search pattern text = true
          <-> exists kw, In kw (keywords_of env) /\ occurs_in kw text)).
  { destruct Hx as (pattern & Hc & Hsem). exists pattern.
    split; [exact Hc|]. split; [exact Hsem|].
    intros d. rewrite mask_iff, Hsem. reflexivity. }
  rewrite build_is_alternation.
  destruct (keywords_of env) as [|k ks] eqn:E.
  - exists (RSeq (RSeq REps (RChar "a")) RBol). split; [reflexivity|].
    intros text. rewrite fallback_pattern_matches_nothing.
    split; [discriminate | intros (kw & [] & _)].
  - assert (Heff : effective_pattern (String.concat "|" (map paren (k :: ks)))
                   = String.concat "|" (map paren (k :: ks))).
    { destruct ks; reflexivity. }
    rewrite Heff. unfold compile.
    destruct (parse_alternation (k :: ks) None ltac:(discriminate) Hplain)
      as (r & Hr & Hsem).
    exists r. split; [exact Hr|]. intros text. unfold re_search.
    rewrite Hsem. split.
    + intros [(a & Ea & _)|H]; [discriminate | exact H].
    + intros H. right. exact H.
Qed.

End KeywordFacts.

(* ------------------------------------------------------------------ *)
(** ** More on the persistence and scoring stages                       *)
(* ------------------------------------------------------------------ *)

Local Open Scope string_scope.
Local Open Scope list_scope.

Section PersistenceExtras.

Context {T : Type}.

Ltac run_bulk :=
  cbv [update_es_logs_iteration await tbind to_update_get try_except
       async_streaming_bulk tret discard on_transport_error
       setup_es_connection];
  cbn.

Lemma doc_generator_tagged (df : Frame) :
  doc_generator (tagged df) = map field_action (rows df).
Proof. reflexivity. Qed.

Lemma doc_generator_anomaly_tagged (df : Frame) :
  doc_generator_anomaly (with_script (select_anomalies (tagged df)))
  = map script_action (filter anomalous (rows df)).
Proof. reflexivity. Qed.

(** X14. The bulk calls of one iteration. A frame without flagged row gets
    one call, the field update of all its rows through the current client.
    A frame with flagged rows gets the scripted update of exactly those
    rows first, through the current client. When that call raises an
    exception no clause catches, the iteration ends with it and no other
    call is made. In every other case the field update of all the rows
    follows: through the client just set up when the scripted update
    raised a transport error with status ["N/A"], through the current
    client otherwise. Every action is an ["update"] on the index ["logs"];
    none is sent twice. *)
Theorem bulk_calls_of_an_iteration (es : nat) (w : World T) (df : Frame)
    (rest : list Frame) :
  logs_to_update_in_elasticsearch w = df :: rest ->
  let after := update_es_logs_iteration es w in
  let scripted :=
    mkBulkCall es (map script_action (filter anomalous (rows df))) in
  let field_update (client : nat) :=
    mkBulkCall client (map field_action (rows df)) in
  (filter anomalous (rows df) = [] ->
   es_bulk_calls (snd after) = es_bulk_calls w ++ [field_update es])
  /\ (filter anomalous (rows df) <> [] ->
      match es_outcomes w with
      | BulkRaises e :: _ =>
          if caught_on_scripted_update e
          then es_bulk_calls (snd after)
               = es_bulk_calls w
                 ++ [scripted;
                     field_update
                       (match e with
                        | TransportError StatusNA => S (es_connections w)
                        | _ => es
                        end)]
          else es_bulk_calls (snd after) = es_bulk_calls w ++ [scripted]
               /\ fst after = Raised e
      | _ =>
          es_bulk_calls (snd after)
          = es_bulk_calls w ++ [scripted; field_update es]
      end).
Proof.
  intros Hq after scripted field_update. subst after scripted field_update.
  destruct w. cbn in Hq. subst.
  split.
  - intros Hno. run_bulk. rewrite Hno. cbn.
    repeat match goal with
    | |- context [match ?x with _ => _ end] =>
        match type of x with
        | list BulkOutcome => destruct x
        | BulkOutcome => destruct x
        | exn => destruct x
        | StatusCode => destruct x
        end; cbn
    end; reflexivity.
  - intros Hsome. cbn [es_outcomes es_bulk_calls es_connections].
    run_bulk.
    destruct (filter anomalous (rows df)) as [|r rs] eqn:E; [congruence|].
    cbn.
    repeat match goal with
    | |- context [match ?x with _ => _ end] =>
        match type of x with
        | list BulkOutcome => destruct x
        | BulkOutcome => destruct x
        | exn => destruct x
        | StatusCode => destruct x
        end; cbn
    end; rewrite <- ?app_assoc; cbn;
    first [ reflexivity | split; reflexivity ].
Qed.


(** X15. A timeout of the event loop ([asyncio] [TimeoutError]) is caught
    around the scripted update only: there the iteration goes on to the
    field update and returns; on the field update it is not caught and
    ends the coroutine. In both cases the frame has left the queue. *)
Theorem timeout_is_caught_on_the_scripted_update_only (es : nat)
    (w : World T) (df : Frame) (rest : list Frame)
    (outs : list BulkOutcome) :
  logs_to_update_in_elasticsearch w = df :: rest ->
  let after := update_es_logs_iteration es w in
  (filter anomalous (rows df) <> [] ->
   es_outcomes w = BulkRaises TimeoutError :: BulkOk :: outs ->
   fst after = Returned es
   /\ logs_to_update_in_elasticsearch (snd after) = rest)
  /\ (filter anomalous (rows df) = [] ->
      es_outcomes w = BulkRaises TimeoutError :: outs ->
      fst after = Raised TimeoutError
      /\ logs_to_update_in_elasticsearch (snd after) = rest)
  /\ (filter anomalous (rows df) <> [] ->
      es_outcomes w = BulkOk :: BulkRaises TimeoutError :: outs ->
      fst after = Raised TimeoutError
      /\ logs_to_update_in_elasticsearch (snd after) = rest).
Proof.
  intros Hq after. subst after. destruct w. cbn in Hq. subst.
  split; [|split].
  - intros Hsome Ho. cbn in Ho. subst. run_bulk.
    destruct (filter anomalous (rows df)) as [|r rs]; [congruence|].
    cbn. split; reflexivity.
  - intros Hno Ho. cbn in Ho. subst. run_bulk. rewrite Hno. cbn.
    split; reflexivity.
  - intros Hsome Ho. cbn in Ho. subst. run_bulk.
    destruct (filter anomalous (rows df)) as [|r rs]; [congruence|].
    cbn. split; reflexivity.
Qed.

(** X16. A transport error that carries an HTTP status on the field update
    is logged and nothing else: the same client is kept, no new one is
    set up, the update is not attempted again and the frame is not put
    back. *)
Theorem http_status_error_is_only_logged (es : nat) (w : World T)
    (df : Frame) (rest : list Frame) (outs : list BulkOutcome) (code : Z) :
  logs_to_update_in_elasticsearch w = df :: rest ->
  filter anomalous (rows df) = [] ->
  es_outcomes w = BulkRaises (TransportError (StatusHTTP code)) :: outs ->
  update_es_logs_iteration es w
  = (Returned es,
     set_es_outcomes outs
       (set_es_bulk_calls
          (es_bulk_calls w ++ [mkBulkCall es (map field_action (rows df))])
          (set_to_update rest w))).
Proof.
  intros Hq Hno Ho. destruct w. cbn in Hq, Ho. subst.
  run_bulk. rewrite Hno. cbn. reflexivity.
Qed.

(** X17. Whatever the bulk calls answer, an iteration that has taken a
    frame leaves on the persistence queue exactly the frames that were
    behind it: nothing is ever put back. It publishes nothing and leaves
    the ingestion queue and the miner alone. *)
Theorem iteration_only_consumes_the_queue (es : nat) (w : World T)
    (df : Frame) (rest : list Frame) :
  logs_to_update_in_elasticsearch w = df :: rest ->
  let after := update_es_logs_iteration es w in
  logs_to_update_in_elasticsearch (snd after) = rest
  /\ nats_published (snd after) = nats_published w
  /\ incoming_logs_to_train_queue (snd after) = incoming_logs_to_train_queue w
  /\ template_miner (snd after) = template_miner w.
Proof.
  intros Hq after. subst after.
  split; [exact (iteration_never_requeues es w df rest Hq)|].
  destruct w. cbn in Hq. subst. run_bulk.
  repeat match goal with
  | |- context [match ?x with _ => _ end] =>
      match type of x with
      | list BulkOutcome => destruct x
      | BulkOutcome => destruct x
      | exn => destruct x
      | StatusCode => destruct x
      | bool => destruct x
      end; cbn
  end; repeat split.
Qed.

End PersistenceExtras.

Section ScoringExtras.

Context {T : Type} `{TemplateMiner T} {engine : RegexEngine}.

Lemma track_counts_fields (df : list InferRow) (w : World T) :
  template_miner (track_counts df w) = template_miner w
  /\ incoming_logs_to_train_queue (track_counts df w)
     = incoming_logs_to_train_queue w
  /\ logs_to_update_in_elasticsearch (track_counts df w)
     = logs_to_update_in_elasticsearch w
  /\ nats_published (track_counts df w) = nats_published w
  /\ es_connections (track_counts df w) = es_connections w
  /\ es_bulk_calls (track_counts df w) = es_bulk_calls w
  /\ es_outcomes (track_counts df w) = es_outcomes w.
Proof.
  destruct w. unfold track_counts.
  repeat match goal with
  | |- context [if ?b then _ else _] => destruct b
  end; repeat split.
Qed.

(** X18. Records without text never reach the miner: whatever the
    iteration ends with, the miner afterwards is the miner fed with the
    records that have text, in order, and the batch has left the queue. *)
Theorem miner_is_fed_the_text_records_only (w : World T) (kw : string)
    (batch : list LogRecord) (rest : list (list LogRecord)) :
  incoming_logs_to_train_queue w = batch :: rest ->
  let after := train_and_inference_iteration kw w in
  template_miner (snd after)
  = fst (classify_all (template_miner w) (filter has_text batch))
  /\ incoming_logs_to_train_queue (snd after) = rest.
Proof.
  intros Hq after. subst after.
  rewrite (train_and_inference_iteration_cases w kw batch rest Hq).
  destruct (snd (classify_all (template_miner w) (filter has_text batch)))
    as [|d ds] eqn:E.
  - cbn [snd]. split; destruct w; reflexivity.
  - destruct (track_counts_fields (d :: ds)
      (set_template_miner
         (fst (classify_all (template_miner w) (filter has_text batch)))
         (set_incoming rest w))) as (Hm & Hi & _).
    destruct (re_compile (effective_pattern kw)) as [pattern|];
      cbn [fst snd];
      (split; [destruct w; exact Hm | destruct w; exact Hi]).
Qed.

Lemma update_counts_partition (df : list InferRow) :
  (update_count df cluster_created
   + update_count df cluster_template_changed
   + update_count df none)%nat = length df.
Proof.
  unfold update_count. induction df as [|d df IH]; [reflexivity|].
  cbn [filter length]. destruct (update_type d); cbn [change_type_eqb length];
    lia.
Qed.

(** X19. The three tracking windows after a batch: each scored record is
    counted under exactly one change type; a window receives the count of
    its type at its front when that count is not zero, and is left alone
    otherwise; and none of them grows beyond 50 entries. *)
Theorem tracking_windows_after_a_batch (df : list InferRow) (w : World T) :
  let w' := track_counts df w in
  let push (k : ChangeType) (dq : list nat) :=
    if (0 <? update_count df k)%nat
    then firstn 50 (update_count df k :: dq) else dq in
  (update_count df cluster_created
   + update_count df cluster_template_changed
   + update_count df none)%nat = length df
  /\ num_clusters_created_tracking_queue w'
     = push cluster_created (num_clusters_created_tracking_queue w)
  /\ num_templates_changed_tracking_queue w'
     = push cluster_template_changed (num_templates_changed_tracking_queue w)
  /\ num_no_templates_change_tracking_queue w'
     = push none (num_no_templates_change_tracking_queue w)
  /\ ((length (num_clusters_created_tracking_queue w) <= 50)%nat ->
      (length (num_templates_changed_tracking_queue w) <= 50)%nat ->
      (length (num_no_templates_change_tracking_queue w) <= 50)%nat ->
      (length (num_clusters_created_tracking_queue w') <= 50)%nat
      /\ (length (num_templates_changed_tracking_queue w') <= 50)%nat
      /\ (length (num_no_templates_change_tracking_queue w') <= 50)%nat).
Proof.
  intros w' push. subst w' push. cbv beta.
  split; [apply update_counts_partition|].
  destruct w. unfold track_counts, deque_appendleft.
  destruct (0 <? update_count df cluster_created)%nat;
  destruct (0 <? update_count df cluster_template_changed)%nat;
  destruct (0 <? update_count df none)%nat;
    cbn [num_clusters_created_tracking_queue
         num_templates_changed_tracking_queue
         num_no_templates_change_tracking_queue
         set_created_queue set_changed_queue set_no_change_queue];
    (split; [reflexivity|]); (split; [reflexivity|]);
    (split; [reflexivity|]); intros H1 H2 H3;
    repeat split; try assumption;
    rewrite length_firstn; lia.
Qed.

Lemma scored_ids (pattern : Pattern) (texts : list LogRecord) (miner : T) :
  map scored_id (map (score pattern) (snd (classify_all miner texts)))
  = map log_id texts.
Proof.
  revert miner. induction texts as [|row texts IH]; intros miner;
    [reflexivity|].
  cbn [classify_all].
  destruct (add_log_message miner (masked_log row)) as [m1 r].
  specialize (IH m1).
  destruct (classify_all m1 texts) as [m2 ds].
  cbn [snd map] in *. rewrite IH. reflexivity.
Qed.

(** X20. From the ingestion queue to the index. When a batch with at least
    one text record is scored with keywords that [re] compiles, the message
    published is delivered back to the process, and the persistence stage
    then runs with every bulk call succeeding, the index has received the
    scripted update for the rows flagged (when there are any) and then
    the field update with one action per text record, carrying its id,
    cluster id and support; the persistence queue is empty again. *)
Theorem scored_batch_reaches_the_index (w : World T) (kw : string)
    (pattern : Pattern) (batch : list LogRecord)
    (rest : list (list LogRecord)) (es : nat) :
  incoming_logs_to_train_queue w = batch :: rest ->
  logs_to_update_in_elasticsearch w = [] ->
  es_outcomes w = [] ->
  re_compile (effective_pattern kw) = Some pattern ->
  filter has_text batch <> [] ->
  let results := snd (classify_all (template_miner w) (filter has_text batch)) in
  let scored := map (score pattern) results in
  let w1 := snd (train_and_inference_iteration kw w) in
  let w2 := snd (deliver ("anomalies", PredictionPayload scored) w1) in
  let after := update_es_logs_iteration es w2 in
  let action_of (kind : ScoredRow -> DocBody) (r : ScoredRow) :=
    mkDoc (scored_id r) (Some "update") (Some "logs") (kind r) in
  let flagged := filter anomalous scored in
  nats_published w1 = nats_published w ++ [("anomalies", PredictionPayload scored)]
  /\ fst after = Returned es
  /\ logs_to_update_in_elasticsearch (snd after) = []
  /\ es_bulk_calls (snd after)
     = es_bulk_calls w
       ++ (match flagged with
           | [] => []
           | _ :: _ =>
               [mkBulkCall es
                  (map (action_of (fun _ => ScriptBody script)) flagged)]
           end)
       ++ [mkBulkCall es
             (map (action_of (fun r =>
                     FieldsBody (scored_template_id r)
                       (scored_template_support r))) scored)]
  /\ map scored_id scored = map log_id (filter has_text batch).
Proof.
  intros Hq Hes Ho Hc Hne results scored w1 w2 after action_of flagged.
  subst w1 w2 after action_of flagged scored results.
  rewrite (train_and_inference_iteration_cases w kw batch rest Hq), Hc.
  pose proof (classify_all_nil_iff (filter has_text batch) (template_miner w))
    as Hnil.
  set (texts := filter has_text batch) in *.
  set (m1 := fst (classify_all (template_miner w) texts)).
  set (df := snd (classify_all (template_miner w) texts)) in *.
  assert (Hids : map scored_id (map (score pattern) df) = map log_id texts)
    by (apply scored_ids).
  destruct df as [|d ds] eqn:E;
    [exfalso; apply Hne; apply Hnil; reflexivity|].
  rewrite <- E in *. clear E Hnil. clearbody df m1. cbn [snd].
  destruct (track_counts_fields df
              (set_template_miner m1 (set_incoming rest w)))
    as (_ & _ & Hu & Hp & Hcn & Hb & Hout).
  set (w0 := track_counts df (set_template_miner m1 (set_incoming rest w)))
    in *.
  replace (nats_published (set_template_miner m1 (set_incoming rest w)))
    with (nats_published w) in Hp by (destruct w; reflexivity).
  replace (logs_to_update_in_elasticsearch
             (set_template_miner m1 (set_incoming rest w)))
    with (@nil Frame) in Hu by (destruct w; cbn in *; congruence).
  replace (es_bulk_calls (set_template_miner m1 (set_incoming rest w)))
    with (es_bulk_calls w) in Hb by (destruct w; reflexivity).
  replace (es_outcomes (set_template_miner m1 (set_incoming rest w)))
    with (@nil BulkOutcome) in Hout by (destruct w; cbn in *; congruence).
  clearbody w0.
  split; [destruct w0; reflexivity|].
  destruct w0. cbn in Hu, Hp, Hb, Hout. subst.
  cbv [deliver anomalies_subscription_handler await to_update_put
       modify_world fst snd String.eqb].
  cbn.
  cbv [update_es_logs_iteration await tbind to_update_get try_except
       async_streaming_bulk tret discard on_transport_error
       setup_es_connection].
  cbn.
  destruct (filter anomalous (map (score pattern) df)) as [|r rs] eqn:Ef.
  - cbn. repeat split; try reflexivity. exact Hids.
  - cbn. rewrite <- !app_assoc. cbn. repeat split; try reflexivity.
    exact Hids.
Qed.

End ScoringExtras.

(* ------------------------------------------------------------------ *)
(** ** Concrete runs of the properties above                            *)
(* ------------------------------------------------------------------ *)

(** Witness of the high-volatility tick: the count jumps from 5 to 8
    (numpy's value is 0.2525). *)
Lemma high_volatility_witness :
  let wv := Volatility64.weighted_vol in
  let s := run64 example_clock wv [5; 5; 5; 5]%nat (initial example_clock) in
  let s' := tick64 example_clock wv 8 s in
  (3 < length (num_total_clusters_tracking_queue s'))%nat
  /\ Float64.ge (wv (num_total_clusters_tracking_queue s')) thr_high64 = true
  /\ stable s = true
  /\ s' = set_train_on_next_chance true (pushed 8 s).
Proof.
  intros wv s s'.
  assert (Hlen : (3 < length (num_total_clusters_tracking_queue s'))%nat)
    by (vm_compute; lia).
  assert (Hge : Float64.ge (wv (num_total_clusters_tracking_queue s'))
                  thr_high64 = true) by (vm_compute; reflexivity).
  assert (Hst : stable s = true) by (vm_compute; reflexivity).
  split; [exact Hlen|]. split; [exact Hge|]. split; [exact Hst|].
  exact (high_volatility_only_marks_awaiting example_clock wv 8 s Hlen Hge).
Defined.

(** Witness: after the trigger at 5, a tick at 10 publishes nothing. *)
Lemma no_trigger_on_the_next_tick_witness :
  let s := run example_clock [5; 5; 5]%nat (initial example_clock) in
  train_outbox (tick example_clock 5 s) <> train_outbox s
  /\ (10 <= 2 * 5)%nat
  /\ train_outbox (tick example_clock 10 (tick example_clock 5 s))
     = train_outbox (tick example_clock 5 s).
Proof.
  intros s.
  assert (Hpub : train_outbox (tick example_clock 5 s) <> train_outbox s)
    by (vm_compute; discriminate).
  assert (Hn : (10 <= 2 * 5)%nat) by lia.
  split; [exact Hpub|]. split; [exact Hn|].
  exact (no_trigger_on_the_next_tick example_clock 5 10 s Hpub Hn).
Defined.

(** Witness: after the trigger at 20 the count reads 28 (numpy's value is
    0.1746). *)
Lemma stable_period_closed_witness :
  let wv := Volatility64.weighted_vol in
  let s := run64 example_clock wv [20; 20; 20; 20]%nat
             (initial example_clock) in
  let s' := tick64 example_clock wv 28 s in
  let weighted_vol := wv (num_total_clusters_tracking_queue s') in
  (3 < length (num_total_clusters_tracking_queue s'))%nat
  /\ Float64.gt weighted_vol thr_close64 = true
  /\ Float64.lt weighted_vol thr_high64 = true
  /\ train_on_next_chance s = false
  /\ stable s = true
  /\ normal_periods s' = [mkPeriod 1000 1010; mkPeriod 1020 1030]
  /\ training_start_ts_ns s' = no_start.
Proof.
  intros wv s s' weighted_vol.
  assert (Hlen : (3 < length (num_total_clusters_tracking_queue s'))%nat)
    by (vm_compute; lia).
  assert (Hgt : Float64.gt weighted_vol thr_close64 = true)
    by (vm_compute; reflexivity).
  assert (Hlt : Float64.lt weighted_vol thr_high64 = true)
    by (vm_compute; reflexivity).
  assert (Ht : train_on_next_chance s = false) by (vm_compute; reflexivity).
  assert (Hst : stable s = true) by (vm_compute; reflexivity).
  split; [exact Hlen|]. split; [exact Hgt|]. split; [exact Hlt|].
  split; [exact Ht|]. split; [exact Hst|].
  pose proof (stable_period_closed_on_rising_volatility example_clock wv 28 s
                Hlen Hgt Hlt Ht Hst) as (Hp & _ & Hs & _).
  split; [exact Hp | exact Hs].
Defined.

Lemma example_clock_not_marker (k : nat) : example_clock k <> no_start.
Proof. unfold example_clock, no_start. lia. Qed.

Lemma example_clock_monotone (i j : nat) :
  (i <= j)%nat -> example_clock i <= example_clock j.
Proof. unfold example_clock. lia. Qed.

(** Witness: the run 20, 20, 20, 20, 28 on the sample clock. *)
Lemma history_is_chronological_witness :
  (forall k, example_clock k <> no_start)
  /\ (forall i j, (i <= j)%nat -> example_clock i <= example_clock j)
  /\ non_overlapping
       (normal_periods
          (run example_clock [20; 20; 20; 20; 28]%nat
             (initial example_clock))).
Proof.
  split; [exact example_clock_not_marker|].
  split; [exact example_clock_monotone|].
  exact (proj1 (proj2 (history_is_chronological example_clock
                         example_clock_not_marker [20; 20; 20; 20; 28]%nat
                         example_clock_monotone))).
Defined.

(** Witness: the state after 5, 5, 5, 5 is stable. *)
Lemma stable_state_has_open_period_witness :
  let s := run example_clock [5; 5; 5; 5]%nat (initial example_clock) in
  (forall k, example_clock k <> no_start)
  /\ stable s = true
  /\ period_open s = true.
Proof.
  intros s.
  assert (Hst : stable s = true) by (vm_compute; reflexivity).
  split; [exact example_clock_not_marker|]. split; [exact Hst|].
  exact (stable_state_has_open_period example_clock example_clock_not_marker
           [5; 5; 5; 5]%nat Hst).
Defined.


(** Witness: [FAIL_KEYWORDS = "fail,,error"]. *)
Lemma plain_keywords_witness :
  forallb plain_word (keywords_of "fail,,error") = true
  /\ keywords_of "fail,,error" = ["fail"; "error"]
  /\ exists pattern,
       compile (effective_pattern (build_fail_keywords_str "fail,,error"))
       = Some pattern
       /\ (forall text,
             re_search pattern text = true
             <-> exists kw,
                   In kw (keywords_of "fail,,error") /\ occurs_in kw text).
Proof.
  assert (Hp : forallb plain_word (keywords_of "fail,,error") = true)
    by reflexivity.
  split; [exact Hp|]. split; [reflexivity|].
  destruct (plain_keywords_are_substring_tests "fail,,error" Hp)
    as (pattern & Hc & Hsem & _).
  exists pattern. split; [exact Hc | exact Hsem].
Defined.

(** Witness: a frame with one flagged row and one that is not; the
    scripted update finds the connection gone, and the field update goes
    through the second client. *)
Lemma bulk_calls_witness :
  let df := mkFrame [mkScored "id1" 1 1 2; mkScored "id2" 0 2 40]
              None None None in
  let w := example_persisting df [BulkRaises (TransportError StatusNA)] in
  logs_to_update_in_elasticsearch w = [df]
  /\ filter anomalous (rows df) <> []
  /\ es_bulk_calls (snd (update_es_logs_iteration 1 w))
     = [mkBulkCall 1
          [mkDoc "id1" (Some "update"%string) (Some "logs"%string)
             (ScriptBody script)];
        mkBulkCall 2
          [mkDoc "id1" (Some "update"%string) (Some "logs"%string)
             (FieldsBody 1 2);
           mkDoc "id2" (Some "update"%string) (Some "logs"%string)
             (FieldsBody 2 40)]].
Proof.
  intros df w.
  assert (Hq : logs_to_update_in_elasticsearch w = [df]) by reflexivity.
  assert (Hne : filter anomalous (rows df) <> []) by (vm_compute; discriminate).
  split; [exact Hq|]. split; [exact Hne|].
  exact (proj2 (bulk_calls_of_an_iteration 1 w df [] Hq) Hne).
Defined.

(** Witness: the field update of a frame without flagged row times out. *)
Lemma timeout_witness :
  let df := mkFrame [mkScored "id2" 0 2 40] None None None in
  let w := example_persisting df [BulkRaises TimeoutError] in
  logs_to_update_in_elasticsearch w = [df]
  /\ filter anomalous (rows df) = []
  /\ es_outcomes w = [BulkRaises TimeoutError]
  /\ fst (update_es_logs_iteration 1 w) = Raised TimeoutError.
Proof.
  intros df w.
  split; [reflexivity|]. split; [reflexivity|]. split; [reflexivity|].
  exact (proj1 (proj1 (proj2
           (timeout_is_caught_on_the_scripted_update_only 1 w df [] []
              eq_refl)) eq_refl eq_refl)).
Defined.

(** Witness: the index answers 503 to the field update. *)
Lemma http_status_witness :
  let df := mkFrame [mkScored "id2" 0 2 40] None None None in
  let w := example_persisting df [BulkRaises (TransportError (StatusHTTP 503))] in
  logs_to_update_in_elasticsearch w = [df]
  /\ filter anomalous (rows df) = []
  /\ es_outcomes w = [BulkRaises (TransportError (StatusHTTP 503))]
  /\ fst (update_es_logs_iteration 1 w) = Returned 1%nat
  /\ es_connections (snd (update_es_logs_iteration 1 w)) = es_connections w.
Proof.
  intros df w.
  split; [reflexivity|]. split; [reflexivity|]. split; [reflexivity|].
  rewrite (http_status_error_is_only_logged 1 w df [] [] 503 eq_refl eq_refl
             eq_refl).
  split; reflexivity.
Defined.

(** Witness: three records, the second without text. *)
Lemma miner_witness :
  let batch := [mkLog "id1" "connection failed"; mkLog "id2" "";
                mkLog "id3" "connection failed"] in
  let w := example_world batch in
  incoming_logs_to_train_queue w = [batch]
  /\ template_miner (snd (train_and_inference_iteration "" w))
     = [("connection failed", 2%Z)].
Proof.
  intros batch w.
  split; [reflexivity|].
  exact (proj1 (miner_is_fed_the_text_records_only w "" batch [] eq_refl)).
Defined.

(** Witness: the same batch, all the way to the index. *)
Lemma scored_batch_reaches_the_index_witness :
  let batch := [mkLog "id1" "connection failed"; mkLog "id2" "";
                mkLog "id3" "connection failed"] in
  let w := example_world batch in
  let pattern := RSeq (RSeq REps (RChar "a")) RBol in
  let scored :=
    map (score pattern)
      (snd (classify_all (template_miner w) (filter has_text batch))) in
  incoming_logs_to_train_queue w = [batch]
  /\ logs_to_update_in_elasticsearch w = []
  /\ es_outcomes w = []
  /\ re_compile (effective_pattern "") = Some pattern
  /\ filter has_text batch <> []
  /\ fst (update_es_logs_iteration 1
            (snd (deliver ("anomalies", PredictionPayload scored)
                    (snd (train_and_inference_iteration "" w)))))
     = Returned 1%nat.
Proof.
  intros batch w pattern scored.
  assert (Hne : filter has_text batch <> []) by (vm_compute; discriminate).
  split; [reflexivity|]. split; [reflexivity|]. split; [reflexivity|].
  split; [reflexivity|]. split; [exact Hne|].
  exact (proj1 (proj2 (scored_batch_reaches_the_index w "" pattern batch []
                         1 eq_refl eq_refl eq_refl eq_refl Hne))).
Defined.

(** Witness of X17: a bulk-indexing error on the only call. *)
Lemma iteration_only_consumes_the_queue_witness :
  let df := mkFrame [mkScored "id2" 0 2 40] None None None in
  let w := example_persisting df [BulkRaises BulkIndexError] in
  logs_to_update_in_elasticsearch w = [df]
  /\ logs_to_update_in_elasticsearch (snd (update_es_logs_iteration 1 w)) = [].
Proof.
  intros df w.
  split; [reflexivity|].
  exact (proj1 (iteration_only_consumes_the_queue 1 w df [] eq_refl)).
Defined.

(** Witness of X21: after 5, 5, 5, 5, 8 a retrain is awaited and the next
    tick at 8 publishes nothing. *)
Lemma awaiting_lasts_witness :
  let s := run example_clock [5; 5; 5; 5; 8]%nat (initial example_clock) in
  train_on_next_chance s = true
  /\ train_outbox (tick example_clock 8 s) = train_outbox s
  /\ train_on_next_chance (tick example_clock 8 s) = true.
Proof.
  intros s.
  assert (Ht : train_on_next_chance s = true) by (vm_compute; reflexivity).
  assert (Ho : train_outbox (tick example_clock 8 s) = train_outbox s)
    by (vm_compute; reflexivity).
  split; [exact Ht|]. split; [exact Ho|].
  exact (awaiting_lasts_until_a_trigger example_clock 8 s Ht Ho).
Defined.
